(** * Verification of the WebAssembly post-build patcher of coraza-proxy-wasm

    The development embeds [patchWasm] of [magefile.go]: the build step that
    reads the module compiled by TinyGo, sets the initial size of its linear
    memory, renames two WASI imports and writes the module back.

    The binary codec ([binary.DecodeModule], [binary.EncodeModule]) and the
    file system ([os.ReadFile], [os.WriteFile]) are collaborators that live
    outside the repository; the model takes them as an interface and every
    theorem holds for all of their implementations. *)

From Stdlib Require Import ZArith Lia.
From Stdlib.Strings Require Import Byte Ascii.
From stdpp Require Import base option list strings gmap.

(** ** Results of Go calls *)

(** A Go [error] value: the diagnostic it carries. *)
Definition error := string.

(** How a Go call ends: it returns a value, returns a non-nil [error], or
    panics (a run-time fault that unwinds the caller). *)
Inductive Res (A : Type) : Type :=
| Ok (a : A)
| Err (e : error)
| Panic (msg : string).
Arguments Ok {A} a.
Arguments Err {A} e.
Arguments Panic {A} msg.

Definition res_bind {A B : Type} (r : Res A) (k : A → Res B) : Res B :=
  match r with
  | Ok a => k a
  | Err e => Err e
  | Panic msg => Panic msg
  end.

(** The run-time fault raised by a store through a nil pointer. *)
Definition nilDereference : string :=
  "runtime error: invalid memory address or nil pointer dereference".

(** ** The module representation used by the patch *)

Module wasm.

(** Modelled from the spec: the memory type declared by the wasm library
    (its declaration is not among the sources). It carries a minimum page
    count and an optional maximum page count; both are uint32 values. *)
Record Memory : Type := mkMemory { Min : Z; Max : option Z }.

(** Modelled from the spec: the description tag of an import entry
    (function-type index, table type, memory type or global type). Table
    and global types are kept as the bytes that describe them. *)
Inductive ImportDesc : Type :=
| DescFunc (typeIndex : Z)
| DescTable (tableType : list byte)
| DescMem (mem : Memory)
| DescGlobal (globalType : list byte).

(** Modelled from the spec: an import entry of the wasm library, with the
    two fields [patchWasm] reads and writes ([Module], [Name]) and its
    description. *)
Record Import : Type := mkImport { Module : string; Name : string; Desc : ImportDesc }.

(** Modelled from the spec: the kind tags of the sections. *)
Inductive SectionID : Type :=
| SectionIDCustom (name : string)
| SectionIDType
| SectionIDFunction
| SectionIDTable
| SectionIDGlobal
| SectionIDExport
| SectionIDStart
| SectionIDElement
| SectionIDCode
| SectionIDData.

(** Modelled from the spec: a section the patch never looks into, as its
    kind and its content. *)
Record Section_ : Type := mkSection { sectionID : SectionID; payload : list byte }.

(** Modelled from the spec: the decoded module of the wasm library. The
    patch reaches [ImportSection] (a slice of pointers to entries, in
    section order) and [MemorySection] (a pointer, nil when the module
    declares no memory); every other section is in [OtherSections], in
    the module's order. The decoder allocates each entry it returns, so no
    two slots share an entry and the entries are held by value here. *)
Record WasmModule : Type := mkModule {
  ImportSection : list Import;
  MemorySection : option Memory;
  OtherSections : list Section_
}.

(** Modelled from the spec: the largest page count the format can
    address (65536 pages of 64 KiB). *)
Definition MemoryLimitPages : Z := 65536.

(** A memory type respects its limits when its minimum does not exceed a
    declared maximum. *)
Definition limitsOK (mem : Memory) : bool :=
  match Max mem with
  | Some max => (Min mem <=? max)%Z
  | None => true
  end.

End wasm.
Export wasm.

(** ** The collaborators: codec and file system *)

(** What [patchWasm] calls outside the repository. [World] is the state of
    the file system. A read leaves it as it is; a write yields the new state
    and the error of the call, if any. *)
Class Collaborators : Type := {
  World : Type;
  CoreFeatures : Type;
  CoreFeaturesV2 : CoreFeatures;
  os_ReadFile : World → string → list byte + error;
  os_WriteFile : World → string → list byte → World * option error;
  binary_DecodeModule : list byte → CoreFeatures → WasmModule + error;
  binary_EncodeModule : WasmModule → list byte
}.

(** The calls a run makes to its collaborators, in order. *)
Inductive Event : Type :=
| EvReadFile (path : string)
| EvDecodeModule (raw : list byte)
| EvEncodeModule (mod_ : WasmModule)
| EvWriteFile (path : string) (data : list byte).

(** ** The patch *)

(** Go's conversion [uint32(n)] of an [int]: the low 32 bits. *)
Definition uint32 (n : Z) : Z := (n mod 2 ^ 32)%Z.

(** [mod.MemorySection.Min = uint32(initialPages)]: a store through the
    pointer [mod.MemorySection], which faults when the pointer is nil. *)
Definition resizeInitialMemory (mod_ : WasmModule) (initialPages : Z) : Res WasmModule :=
  match MemorySection mod_ with
  | None => Panic nilDereference
  | Some mem =>
      Ok {| ImportSection := ImportSection mod_;
            MemorySection := Some {| Min := uint32 initialPages; Max := Max mem |};
            OtherSections := OtherSections mod_ |}
  end.

(** The body of the loop over the imports: the [switch] on [imp.Name]. *)
Definition patchImport (imp : Import) : Import :=
  if String.eqb (Name imp) "fd_filestat_get" then
    {| Module := Module imp; Name := "fd_fdstat_get"; Desc := Desc imp |}
  else if String.eqb (Name imp) "path_filestat_get" then
    {| Module := "env"; Name := "proxy_get_header_map_value"; Desc := Desc imp |}
  else imp.

(** [for _, imp := range mod.ImportSection { ... }]: every entry is visited
    once, in section order, and updated through its pointer. *)
Fixpoint renameImports (imports : list Import) : list Import :=
  match imports with
  | [] => []
  | imp :: rest => patchImport imp :: renameImports rest
  end.

Definition patchImports (mod_ : WasmModule) : WasmModule :=
  {| ImportSection := renameImports (ImportSection mod_);
     MemorySection := MemorySection mod_;
     OtherSections := OtherSections mod_ |}.

(** The mutations of [patchWasm] between decoding and encoding: the memory
    resize, then the pass over the imports. *)
Definition patchModule (mod_ : WasmModule) (initialPages : Z) : Res WasmModule :=
  res_bind (resizeInitialMemory mod_ initialPages) (λ m, Ok (patchImports m)).

(** ** The run, as a computation over the file system *)

Section Run.
Context {host : Collaborators}.

(** A computation takes the world and gives the new world, the calls it
    made and how it ended. *)
Definition M (A : Type) : Type := World → World * list Event * Res A.

Definition ret {A : Type} (a : A) : M A := λ w, (w, [], Ok a).

Definition bind {A B : Type} (c : M A) (k : A → M B) : M B :=
  λ w,
    match c w with
    | (w1, evs1, Ok a) =>
        match k a w1 with
        | (w2, evs2, r) => (w2, evs1 ++ evs2, r)
        end
    | (w1, evs1, Err e) => (w1, evs1, Err e)
    | (w1, evs1, Panic msg) => (w1, evs1, Panic msg)
    end.

Definition liftRes {A : Type} (r : Res A) : M A := λ w, (w, [], r).

Definition readFile (path : string) : M (list byte) :=
  λ w,
    (w, [EvReadFile path],
     match os_ReadFile w path with
     | inl raw => Ok raw
     | inr err => Err err
     end).

Definition decodeModule (raw : list byte) : M WasmModule :=
  λ w,
    (w, [EvDecodeModule raw],
     match binary_DecodeModule raw CoreFeaturesV2 with
     | inl m => Ok m
     | inr err => Err err
     end).

Definition encodeModule (mod_ : WasmModule) : M (list byte) :=
  λ w, (w, [EvEncodeModule mod_], Ok (binary_EncodeModule mod_)).

Definition writeFile (path : string) (data : list byte) : M unit :=
  λ w,
    match os_WriteFile w path data with
    | (w', None) => (w', [EvWriteFile path data], Ok tt)
    | (w', Some err) => (w', [EvWriteFile path data], Err err)
    end.

End Run.

Declare Scope run_scope.
Delimit Scope run_scope with run.
Notation "'call' x := c 'in' k" := (bind c (λ x, k))
  (at level 10, x name, c at level 100, k at level 200) : run_scope.

Section PatchWasm.
Context {host : Collaborators}.

(** [patchWasm] of magefile.go. The result [Ok tt] is the nil error. *)
Definition patchWasm (inPath outPath : string) (initialPages : Z) : M unit :=
  (call raw := readFile inPath in
   call mod_ := decodeModule raw in
   call mod_ := liftRes (patchModule mod_ initialPages) in
   call out := encodeModule mod_ in
   writeFile outPath out)%run.

(** The output a run handed to the file system, if it got that far. *)
Definition written (run : World * list Event * Res unit) : list (string * list byte) :=
  omap (λ ev, match ev with EvWriteFile p d => Some (p, d) | _ => None end) (run.1.2).

End PatchWasm.

(** ** The cases of the [switch] as a rule table *)

(** One case of the switch: the field name it tests, and what it assigns.
    A case that does not assign [imp.Module] has [newModule = None]. *)
Record RemapRule : Type := mkRule {
  oldName : string;
  newModule : option string;
  newName : string
}.

Definition applyRule (r : RemapRule) (imp : Import) : Import :=
  {| Module := default (Module imp) (newModule r);
     Name := newName r;
     Desc := Desc imp |}.

Definition matchesRule (r : RemapRule) (imp : Import) : bool :=
  String.eqb (Name imp) (oldName r).

(** No entry of [imports] has the field name that [r] tests. *)
Definition ruleMisses (r : RemapRule) (imports : list Import) : bool :=
  forallb (λ imp, negb (matchesRule r imp)) imports.

(** A Go [switch] runs the first case whose condition holds, and no other. *)
Fixpoint remap (rules : list RemapRule) (imp : Import) : Import :=
  match rules with
  | [] => imp
  | r :: rest => if matchesRule r imp then applyRule r imp else remap rest imp
  end.

Definition remapTable : list RemapRule :=
  [ {| oldName := "fd_filestat_get"; newModule := None; newName := "fd_fdstat_get" |};
    {| oldName := "path_filestat_get"; newModule := Some "env";
       newName := "proxy_get_header_map_value" |} ].

(** The module a patch with the rule table [rules] yields from [mod_] whose
    memory is [mem]. *)
Definition patchedWith (rules : list RemapRule) (mod_ : WasmModule) (mem : Memory)
    (initialPages : Z) : WasmModule :=
  {| ImportSection := remap rules <$> ImportSection mod_;
     MemorySection := Some {| Min := uint32 initialPages; Max := Max mem |};
     OtherSections := OtherSections mod_ |}.

(** The mutations of [patchWasm] when the switch has the cases [rules]. *)
Definition patchModuleWith (rules : list RemapRule) (mod_ : WasmModule)
    (initialPages : Z) : Res WasmModule :=
  res_bind (resizeInitialMemory mod_ initialPages)
    (λ m, Ok {| ImportSection := remap rules <$> ImportSection m;
                MemorySection := MemorySection m;
                OtherSections := OtherSections m |}).

(** ** A stand-in environment to run the model on concrete inputs

    A file system held in a list and a toy codec: eight header bytes, then
    one optional byte giving the minimum of the memory. It only serves to
    evaluate the run; no theorem depends on it. *)

Module Sample.

Definition header : list byte := [x00; x61; x73; x6d; x01; x00; x00; x00].

Definition imports : list Import :=
  [ {| Module := "wasi_snapshot_preview1"; Name := "fd_filestat_get"; Desc := DescFunc 3 |};
    {| Module := "env"; Name := "proxy_log"; Desc := DescFunc 1 |};
    {| Module := "wasi_snapshot_preview1"; Name := "fd_write"; Desc := DescFunc 5 |} ].

Definition sections : list Section_ :=
  [ {| sectionID := SectionIDCode; payload := [x01; x02; x00; x0b] |} ].

Fixpoint stripPrefix (prefix raw : list byte) : option (list byte) :=
  match prefix, raw with
  | [], rest => Some rest
  | p :: prefix', b :: raw' =>
      if Byte.eqb p b then stripPrefix prefix' raw' else None
  | _ :: _, [] => None
  end.

Definition decode (raw : list byte) (_ : unit) : WasmModule + error :=
  match stripPrefix header raw with
  | None => inr "invalid magic number"
  | Some [] =>
      inl {| ImportSection := imports; MemorySection := None; OtherSections := sections |}
  | Some (b :: _) =>
      inl {| ImportSection := imports;
             MemorySection := Some {| Min := Z.of_N (Byte.to_N b); Max := None |};
             OtherSections := sections |}
  end.

Definition lowByte (n : Z) : byte :=
  default x00 (Byte.of_N (Z.to_N (n mod 256))).

Definition encode (mod_ : WasmModule) : list byte :=
  header ++ match MemorySection mod_ with
            | Some mem => [lowByte (Min mem)]
            | None => []
            end.

Definition Files : Type := list (string * list byte).

Fixpoint read (files : Files) (path : string) : list byte + error :=
  match files with
  | [] => inr "no such file or directory"
  | (p, data) :: rest => if String.eqb p path then inl data else read rest path
  end.

Definition write (files : Files) (path : string) (data : list byte) : Files * option error :=
  ((path, data) :: files, None).

Definition env : Collaborators :=
  {| World := Files;
     CoreFeatures := unit;
     CoreFeaturesV2 := tt;
     os_ReadFile := read;
     os_WriteFile := write;
     binary_DecodeModule := decode;
     binary_EncodeModule := encode |}.

Definition rawModule : list byte := header ++ [x02].
Definition rawNoMemory : list byte := header.
Definition rawTruncated : list byte := [x00; x61; x73].

Definition moduleTwoPages : WasmModule :=
  {| ImportSection := imports;
     MemorySection := Some {| Min := 2; Max := None |};
     OtherSections := sections |}.

Definition moduleNoMemory : WasmModule :=
  {| ImportSection := imports; MemorySection := None; OtherSections := sections |}.

(** The rule for [path_filestat_get]; no entry of [imports] has that name. *)
Definition pathRule : RemapRule :=
  {| oldName := "path_filestat_get"; newModule := Some "env";
     newName := "proxy_get_header_map_value" |}.

Definition disk : Files :=
  [ ("build/mainraw.wasm", rawModule);
    ("build/nomem.wasm", rawNoMemory);
    ("build/short.wasm", rawTruncated) ].

(** A module whose memory declares a maximum of two pages. *)
Definition bounded : WasmModule :=
  {| ImportSection := imports;
     MemorySection := Some {| Min := 1; Max := Some 2%Z |};
     OtherSections := sections |}.

(** A module that imports the same function twice. *)
Definition duplicated : WasmModule :=
  {| ImportSection :=
       [ {| Module := "wasi_snapshot_preview1"; Name := "fd_filestat_get"; Desc := DescFunc 3 |};
         {| Module := "wasi_snapshot_preview1"; Name := "fd_filestat_get"; Desc := DescFunc 3 |} ];
     MemorySection := Some {| Min := 2; Max := None |};
     OtherSections := sections |}.

(** The same field imported from two different namespaces. *)
Definition fromPreview1 : Import :=
  {| Module := "wasi_snapshot_preview1"; Name := "fd_filestat_get"; Desc := DescFunc 3 |}.
Definition fromUnstable : Import :=
  {| Module := "wasi_unstable"; Name := "fd_filestat_get"; Desc := DescFunc 3 |}.

End Sample.

(** * The build tasks of magefile.go *)

(** ** Go's string helpers, on byte strings *)

(** [strings.HasPrefix(s, prefix)]. *)
Definition strings_HasPrefix (s pre : string) : bool := String.prefix pre s.

(** [strings.Contains(s, substr)]: [substr] starts at some position of [s]. *)
Fixpoint strings_Contains (s substr : string) : bool :=
  String.prefix substr s ||
  match s with
  | EmptyString => false
  | String _ rest => strings_Contains rest substr
  end.

(** [strings.Join(elems, sep)]. *)
Definition strings_Join (elems : list string) (sep : string) : string :=
  String.concat sep elems.

Fixpoint skip (n : nat) (s : string) : string :=
  match n, s with
  | S n', String _ rest => skip n' rest
  | _, _ => s
  end.

(** [strings.Replace(s, old, new, 1)]: the first occurrence of [old], from
    the left, is replaced; an empty [old] occurs at the start. *)
Fixpoint strings_Replace1 (s old new : string) : string :=
  if String.prefix old s then new +:+ skip (String.length old) s
  else match s with
       | EmptyString => EmptyString
       | String c rest => String c (strings_Replace1 rest old new)
       end.

(** [s] up to the first [sep], and what follows it. *)
Fixpoint cutAt (sep : ascii) (s : string) : option (string * string) :=
  match s with
  | EmptyString => None
  | String c rest =>
      if Ascii.eqb c sep then Some (EmptyString, rest)
      else match cutAt sep rest with
           | Some (before, after) => Some (String c before, after)
           | None => None
           end
  end.

(** [strings.SplitN(s, sep, n)] for a separator of one byte and [n >= 0]:
    at most [n] pieces, the last one holding the unsplit rest. *)
Fixpoint strings_SplitN (s : string) (sep : ascii) (n : nat) : list string :=
  match n with
  | O => []
  | S O => [s]
  | S (S _ as n') =>
      match cutAt sep s with
      | None => [s]
      | Some (before, after) => before :: strings_SplitN after sep n'
      end
  end.

(** ** The host of the build tasks *)

(** How mage's [sh] package runs a command: [sh.Run] (quiet), [sh.RunV] and
    [sh.RunWithV] (output shown) or [sh.Output] (output captured). *)
Inductive RunKind : Type := Quiet | Verbose | Captured.

(** One command: the extra environment it gets, the program and its
    arguments. *)
Record Invocation : Type := mkInvocation {
  how : RunKind;
  extraEnv : gmap string string;
  program : string;
  arguments : list string
}.

(** What the tasks call besides the codec and the two file calls of
    [Collaborators]. The process environment is read by [os_Getenv]; nothing
    in the file sets it. A command gives the new state of the world, what it
    printed on its standard output and its error, if any. *)
Class BuildHost : Type := {
  build_files :: Collaborators;
  os_Getenv : string → string;
  os_Getwd : World → string + error;
  os_MkdirAll : World → string → World * option error;
  os_CreateTemp : World → string → string → World * (string + error);
  file_Write : World → string → list byte → World;
  os_Remove : World → string → World;
  sh_exec : World → Invocation → World * string * option error;
  strconv_Atoi : string → Z * option error;
  regexp_FindStringSubmatch : string → string → list string;
  filepath_Join : list string → string;
  filepath_Base : string → string;
  fmt_quote : string → string
}.

(** The calls a task makes, in order. The calls [patchWasm] makes are
    wrapped in [ShPatch]. *)
Inductive ShEvent : Type :=
| ShPrintf (text : string)
| ShCommand (inv : Invocation)
| ShMkdirAll (path : string)
| ShReadFile (path : string)
| ShCreateTemp (dir pattern : string)
| ShFileWrite (name : string) (data : list byte)
| ShRemove (name : string)
| ShExit (code : Z)
| ShPatch (ev : Event).

Section Tasks.
Context {bh : BuildHost}.

Definition Sh (A : Type) : Type := World → World * list ShEvent * Res A.

Definition sh_ret {A : Type} (a : A) : Sh A := λ w, (w, [], Ok a).

Definition sh_throw {A : Type} (e : error) : Sh A := λ w, (w, [], Err e).

Definition sh_bind {A B : Type} (c : Sh A) (k : A → Sh B) : Sh B :=
  λ w,
    match c w with
    | (w1, evs1, Ok a) =>
        match k a w1 with
        | (w2, evs2, r) => (w2, evs1 ++ evs2, r)
        end
    | (w1, evs1, Err e) => (w1, evs1, Err e)
    | (w1, evs1, Panic msg) => (w1, evs1, Panic msg)
    end.

(** [err := f()] where the error is a value to look at, not to return. *)
Definition errorOf (c : Sh unit) : Sh (option error) :=
  λ w,
    match c w with
    | (w1, evs1, Ok _) => (w1, evs1, Ok None)
    | (w1, evs1, Err e) => (w1, evs1, Ok (Some e))
    | (w1, evs1, Panic msg) => (w1, evs1, Panic msg)
    end.

(** [defer deferred(); body]: the deferred call runs when the body is
    over, however it ended, and its own result is dropped. *)
Definition deferring {A : Type} (deferred : Sh unit) (body : Sh A) : Sh A :=
  λ w,
    match body w with
    | (w1, evs1, r) =>
        match deferred w1 with
        | (w2, evs2, Panic msg) => (w2, evs1 ++ evs2, Panic msg)
        | (w2, evs2, _) => (w2, evs1 ++ evs2, r)
        end
    end.

(** A run of [patchWasm] inside a task. *)
Definition patching {A : Type} (c : M A) : Sh A :=
  λ w, match c w with (w1, evs, r) => (w1, ShPatch <$> evs, r) end.

Definition runCommand (kind : RunKind) (env : gmap string string)
    (cmd : string) (args : list string) : Sh (string * option error) :=
  λ w,
    match sh_exec w (mkInvocation kind env cmd args) with
    | (w1, out, err) => (w1, [ShCommand (mkInvocation kind env cmd args)], Ok (out, err))
    end.

Definition failWith (err : option error) : Sh unit :=
  match err with
  | Some e => sh_throw e
  | None => sh_ret tt
  end.

(** [sh.Output(cmd, args...)]: the output and the error. *)
Definition sh_Output (cmd : string) (args : list string) : Sh (string * option error) :=
  runCommand Captured ∅ cmd args.

(** [sh.RunWithV(env, cmd, args...)], as a call that returns its error. *)
Definition sh_RunWithV (env : gmap string string) (cmd : string) (args : list string) : Sh unit :=
  sh_bind (runCommand Verbose env cmd args) (λ r, failWith r.2).

(** [sh.RunV(cmd, args...)]. *)
Definition sh_RunV (cmd : string) (args : list string) : Sh unit :=
  sh_RunWithV ∅ cmd args.

(** [sh.Run(cmd, args...)]. *)
Definition sh_Run (cmd : string) (args : list string) : Sh unit :=
  sh_bind (runCommand Quiet ∅ cmd args) (λ r, failWith r.2).

Definition mkdirAll (path : string) : Sh unit :=
  λ w, match os_MkdirAll w path with
       | (w1, None) => (w1, [ShMkdirAll path], Ok tt)
       | (w1, Some err) => (w1, [ShMkdirAll path], Err err)
       end.

Definition getwd : Sh string :=
  λ w, match os_Getwd w with
       | inl wd => (w, [], Ok wd)
       | inr err => (w, [], Err err)
       end.

Definition readManifest (path : string) : Sh (list byte) :=
  λ w, (w, [ShReadFile path],
        match os_ReadFile w path with
        | inl raw => Ok raw
        | inr err => Err err
        end).

Definition createTemp (dir pattern : string) : Sh string :=
  λ w, match os_CreateTemp w dir pattern with
       | (w1, inl name) => (w1, [ShCreateTemp dir pattern], Ok name)
       | (w1, inr err) => (w1, [ShCreateTemp dir pattern], Err err)
       end.

Definition fileWrite (name : string) (data : list byte) : Sh unit :=
  λ w, (file_Write w name data, [ShFileWrite name data], Ok tt).

Definition remove (name : string) : Sh unit :=
  λ w, (os_Remove w name, [ShRemove name], Ok tt).

Definition printf (text : string) : Sh unit :=
  λ w, (w, [ShPrintf text], Ok tt).

End Tasks.

Declare Scope sh_scope.
Delimit Scope sh_scope with sh.
Notation "'call' x := c 'in' k" := (sh_bind c (λ x, k))
  (at level 10, x name, c at level 100, k at level 200) : sh_scope.
Notation "'run' c 'then' k" := (sh_bind c (λ _, k))
  (at level 10, c at level 100, k at level 200) : sh_scope.

(** ** The tasks *)

Definition newline : string := String "010"%char EmptyString.
Definition backslash : string := String "092"%char EmptyString.

Definition minGoVersion : string := "1.19".
Definition tinygoMinorVersion : string := "0.26".

(** The fault of an index expression out of the bounds of its slice (the
    indices the run-time adds to the message are left out). *)
Definition indexOutOfRange : string := "runtime error: index out of range".

(** [l[i]]. *)
Definition at_ (l : list string) (i : nat) : Res string :=
  match l !! i with
  | Some x => Ok x
  | None => Panic indexOutOfRange
  end.

Section TaskBodies.
Context {bh : BuildHost}.

(** [checkTinygoVersion]. *)
Definition checkTinygoVersion : Sh unit :=
  (call r := sh_Output "tinygo" ["version"] in
   match r.2 with
   | Some err => sh_throw ("unexpected tinygo error: " +:+ err)
   | None =>
       if strings_Contains r.1 "-dev" then sh_ret tt
       else if negb (strings_HasPrefix r.1 ("tinygo version " +:+ tinygoMinorVersion))
       then sh_throw ("unexpected tinygo version, wanted " +:+ tinygoMinorVersion)
       else sh_ret tt
   end)%sh.

Definition versionRegex : string := "go([0-9]+).([0-9]+).?([0-9]+)?".

(** [if compare[2] == "" { compare[2] = "0" }]. *)
Definition fillPatch (compare : list string) : Res (list string) :=
  res_bind (at_ compare 2)
    (λ c2, Ok (if String.eqb c2 "" then <[2%nat := "0"]> compare else compare)).

(** [base := strings.SplitN(minGoVersion, ".", 3)], completed with "0" when
    it has two components. *)
Definition splitBase (version : string) : list string :=
  let base := strings_SplitN version "."%char 3 in
  if (length base =? 2)%nat then base ++ ["0"] else base.

(** The loop [for i := 0; i < 3; i++] of [checkGoVersion], from index [i]
    with [todo] rounds to go. *)
Fixpoint compareLoop (base compare : list string) (i todo : nat) : Res unit :=
  match todo with
  | O => Ok tt
  | S todo' =>
      res_bind (at_ base i) (λ b,
      res_bind (at_ compare i) (λ c,
        if ((strconv_Atoi b).1 >? (strconv_Atoi c).1)%Z
        then Err ("unexpected go version, minimum want " +:+ fmt_quote minGoVersion
                  +:+ ", have " +:+ fmt_quote (strings_Join compare "."))
        else compareLoop base compare (S i) todo'))
  end.

(** [checkGoVersion]. *)
Definition checkGoVersion : Sh unit :=
  (call r := sh_Output "go" ["version"] in
   match r.2 with
   | Some err => sh_throw ("unexpected go error: " +:+ err)
   | None =>
       let compare := regexp_FindStringSubmatch versionRegex r.1 in
       if negb (length compare =? 4)%nat
       then sh_throw ("unexpected go semver: " +:+ fmt_quote r.1)
       else
         λ w, (w, [],
               res_bind (fillPatch (drop 1 compare))
                 (λ compare, compareLoop (splitBase minGoVersion) compare 0 3))
   end)%sh.

(** [os.Exit(code)]: the last call of the process. *)
Definition exitProcess (code : Z) : Sh unit := λ w, (w, [ShExit code], Ok tt).

(** One round of the loop of [init]: on an error the process prints it and
    exits, so that the rounds that follow are not run. *)
Definition checkOrExit (check : Sh unit) (following : Sh unit) : Sh unit :=
  (call err := errorOf check in
   match err with
   | Some e => run printf ("Error: " +:+ e +:+ newline) then exitProcess 1
   | None => following
   end)%sh.

(** [init]. *)
Definition init : Sh unit :=
  checkOrExit checkTinygoVersion (checkOrExit checkGoVersion (sh_ret tt)).

(** The tags [Build] compiles with. *)
Definition buildTags : list string :=
  ["custommalloc"]
  ++ (if String.eqb (os_Getenv "TIMING") "true" then ["timing"; "proxywasm_timing"] else [])
  ++ (if String.eqb (os_Getenv "MEMSTATS") "true" then ["memstats"] else []).

(** The page count of [Build]: 2100, or the value of INITIAL_PAGES. *)
Definition initialPagesOf : Res Z :=
  let ipEnv := os_Getenv "INITIAL_PAGES" in
  if negb (String.eqb ipEnv "") then
    match strconv_Atoi ipEnv with
    | (_, Some err) => Err err
    | (ip, None) => Ok ip
    end
  else Ok 2100%Z.

Definition tinygoImage : string :=
  "ghcr.io/corazawaf/coraza-proxy-wasm/buildtools-tinygo:main".

Definition buildScript (buildTagArg : string) : string :=
  newline +:+ "cd /src && " +:+ backslash +:+ newline
  +:+ "tinygo build -gc=none -opt=2 -o " +:+ filepath_Join ["build"; "mainraw.wasm"]
  +:+ " -scheduler=none -target=wasi " +:+ buildTagArg.

(** [Build]. *)
Definition Build : Sh unit :=
  (run mkdirAll "build" then
   let buildTagArg := "-tags='" +:+ strings_Join buildTags " " +:+ "'" in
   call initialPages := (λ w, (w, [], initialPagesOf)) in
   call wd := getwd in
   run sh_RunV "docker"
         ["run"; "--pull=always"; "--rm"; "-v"; wd +:+ ":/src"; tinygoImage;
          "bash"; "-c"; buildScript buildTagArg] then
   patching (patchWasm (filepath_Join ["build"; "mainraw.wasm"])
                       (filepath_Join ["build"; "main.wasm"]) initialPages))%sh.

Definition buildtoolsImage (lib : string) : string :=
  "ghcr.io/corazawaf/coraza-proxy-wasm/buildtools-" +:+ lib.

(** The loop of [UpdateLibs] over the libraries still to do. *)
Fixpoint updateLibsLoop (libs : list string) : Sh unit :=
  match libs with
  | [] => sh_ret tt
  | lib :: rest =>
      (run sh_RunV "docker"
             ["build"; "-t"; buildtoolsImage lib; filepath_Join ["buildtools"; lib]] then
       call wd := getwd in
       run sh_RunV "docker"
             ["run"; "-it"; "--rm"; "-v"; filepath_Join [wd; "lib"] +:+ ":/out";
              buildtoolsImage lib] then
       updateLibsLoop rest)%sh
  end.

(** [UpdateLibs]. *)
Definition UpdateLibs : Sh unit :=
  updateLibsLoop ["aho-corasick"; "libinjection"; "mimalloc"; "re2"].

(** The loop of [runK8sApply] over the replacement pairs, from pair [i]
    with [todo] pairs to go. *)
Fixpoint replaceLoop (replacementKV : list string) (i todo : nat) (patched : string)
    : Res string :=
  match todo with
  | O => Ok patched
  | S todo' =>
      res_bind (at_ replacementKV (2 * i)) (λ k,
      res_bind (at_ replacementKV (2 * i + 1)) (λ v,
        replaceLoop replacementKV (S i) todo' (strings_Replace1 patched k v)))
  end.

(** [runK8sApply]. *)
Definition runK8sApply (file : string) (replacementKV : list string) : Sh unit :=
  (run printf ("Applying " +:+ fmt_quote file +:+ newline) then
   if (length replacementKV =? 0)%nat then sh_RunV "kubectl" ["apply"; "-f"; file]
   else if negb (length replacementKV mod 2 =? 0)%nat
   then sh_throw "missing value for a replacement pair"
   else
     call manifest := readManifest file in
     call patchedManifest :=
       (λ w, (w, [], replaceLoop replacementKV 0 (length replacementKV / 2)
                       (String.string_of_list_byte manifest))) in
     call f := createTemp "" (filepath_Base file) in
     run fileWrite f (String.list_byte_of_string patchedManifest) then
     deferring (remove f) (sh_RunV "kubectl" ["apply"; "-f"; f]))%sh.

Definition ftwCompose : list string := ["--file"; "ftw/docker-compose.yml"].

(** The environment [Ftw] gives to the test run. *)
Definition ftwEnv : gmap string string :=
  let env : gmap string string := {[ "FTW_CLOUDMODE" := os_Getenv "FTW_CLOUDMODE" ]} in
  if String.eqb (os_Getenv "ENVOY_NOWASM") "true"
  then <["ENVOY_CONFIG" := "/conf/envoy-config-nowasm.yaml"]> env
  else env.

Definition ftwTask : string :=
  if String.eqb (os_Getenv "MEMSTATS") "true" then "ftw-memstats" else "ftw".

(** [Ftw]. *)
Definition Ftw : Sh unit :=
  (run sh_RunV "docker-compose" (ftwCompose ++ ["build"; "--pull"]) then
   deferring (sh_RunV "docker-compose" (ftwCompose ++ ["down"; "-v"]))
     (sh_RunWithV ftwEnv "docker-compose" (ftwCompose ++ ["run"; "--rm"; ftwTask])))%sh.

End TaskBodies.

(** ** Helpers to state what the tasks do *)

(** The replacement pairs applied in order, each to the first occurrence
    of its key. *)
Fixpoint replacePairs (patched : string) (replacementKV : list string) : string :=
  match replacementKV with
  | k :: v :: rest => replacePairs (strings_Replace1 patched k v) rest
  | _ => patched
  end.


Section Commands.
Context {bh : BuildHost}.

(** The command [checkTinygoVersion] and [checkGoVersion] run. *)
Definition versionOf (tool : string) : Invocation :=
  mkInvocation Captured ∅ tool ["version"].

(** The compilation [Build] runs in the working directory [wd]. *)
Definition compileCommand (wd : string) : Invocation :=
  mkInvocation Verbose ∅ "docker"
    ["run"; "--pull=always"; "--rm"; "-v"; wd +:+ ":/src"; tinygoImage; "bash"; "-c";
     buildScript ("-tags='" +:+ strings_Join buildTags " " +:+ "'")].

(** The text of the error [checkGoVersion] returns for the components
    [have] of the installed version. *)
Definition goVersionError (have : list string) : error :=
  "unexpected go version, minimum want " +:+ fmt_quote minGoVersion
  +:+ ", have " +:+ fmt_quote (strings_Join have ".").

Definition kubectlApply (file : string) : Invocation :=
  mkInvocation Verbose ∅ "kubectl" ["apply"; "-f"; file].

Definition ftwBuild : Invocation :=
  mkInvocation Verbose ∅ "docker-compose" (ftwCompose ++ ["build"; "--pull"]).

Definition ftwTests : Invocation :=
  mkInvocation Verbose ftwEnv "docker-compose" (ftwCompose ++ ["run"; "--rm"; ftwTask]).

Definition ftwDown : Invocation :=
  mkInvocation Verbose ∅ "docker-compose" (ftwCompose ++ ["down"; "-v"]).

(** The two commands [UpdateLibs] runs for the library [lib]: the build of
    its image and the run of its container, in the directory [wd]. *)
Definition libBuild (lib : string) : Invocation :=
  mkInvocation Verbose ∅ "docker"
    ["build"; "-t"; buildtoolsImage lib; filepath_Join ["buildtools"; lib]].

Definition libRun (wd lib : string) : Invocation :=
  mkInvocation Verbose ∅ "docker"
    ["run"; "-it"; "--rm"; "-v"; filepath_Join [wd; "lib"] +:+ ":/out";
     buildtoolsImage lib].

(** Commands run one after the other, each in the world the one before
    left, up to and including the first one that fails: its error is the
    result, and the commands after it are not run. *)
Fixpoint runInOrder (cmds : list Invocation) (w : World)
    : World * list ShEvent * Res unit :=
  match cmds with
  | [] => (w, [], Ok tt)
  | inv :: rest =>
      match sh_exec w inv with
      | (w1, _, Some e) => (w1, [ShCommand inv], Err e)
      | (w1, _, None) =>
          match runInOrder rest w1 with
          | (w2, evs, r) => (w2, ShCommand inv :: evs, r)
          end
      end
  end.

End Commands.

(** What a call that returns only an error gives for [err]. *)
Definition resultOf (err : option error) : Res unit :=
  match err with
  | Some e => Err e
  | None => Ok tt
  end.

(** ** A stand-in host to run the tasks on concrete inputs

    Commands answer as the function [exec] says and change nothing;
    temporary files are created under /tmp. It only serves to evaluate the
    tasks; no theorem depends on it. *)

Module SampleTasks.

Definition digit (c : ascii) : option Z :=
  let n := nat_of_ascii c in
  if ((48 <=? n) && (n <=? 57))%nat then Some (Z.of_nat (n - 48)) else None.

Fixpoint digits (acc : Z) (s : string) : option Z :=
  match s with
  | EmptyString => Some acc
  | String c rest =>
      match digit c with
      | Some d => digits (10 * acc + d) rest
      | None => None
      end
  end.

Definition atoi (s : string) : Z * option error :=
  match s with
  | EmptyString => (0%Z, Some "invalid syntax")
  | String "-"%char rest =>
      match rest, digits 0 rest with
      | String _ _, Some n => ((- n)%Z, None)
      | _, _ => (0%Z, Some "invalid syntax")
      end
  | _ =>
      match digits 0 s with
      | Some n => (n, None)
      | None => (0%Z, Some "invalid syntax")
      end
  end.

Definition quote (s : string) : string :=
  String "034"%char EmptyString +:+ s +:+ String "034"%char EmptyString.

Definition unlink (files : Sample.Files) (name : string) : Sample.Files :=
  List.filter (λ entry, negb (String.eqb entry.1 name)) files.

Definition host (environ : string → string) (exec : Invocation → string * option error)
    (submatch : string → list string) : BuildHost :=
  {| build_files := Sample.env;
     os_Getenv := environ;
     os_Getwd := λ _ : Sample.Files, inl "/work";
     os_MkdirAll := λ (w : Sample.Files) _, (w, None);
     os_CreateTemp := λ (w : Sample.Files) _ pattern, (w, inl ("/tmp/" +:+ pattern));
     file_Write := λ (w : Sample.Files) name data, (name, data) :: w;
     os_Remove := unlink;
     sh_exec := λ (w : Sample.Files) inv, (w, (exec inv).1, (exec inv).2);
     strconv_Atoi := atoi;
     regexp_FindStringSubmatch := λ _ v, submatch v;
     filepath_Join := String.concat "/";
     filepath_Base := λ path, path;
     fmt_quote := quote |}.

(** No variable is set. *)
Definition noEnv (key : string) : string := EmptyString.

(** INITIAL_PAGES is set to [value]. *)
Definition pagesEnv (value : string) (key : string) : string :=
  if String.eqb key "INITIAL_PAGES" then value else EmptyString.

(** Every command succeeds; [tinygo version] and [go version] print [v]. *)
Definition prints (v : string) (inv : Invocation) : string * option error := (v, None).

(** Every command fails, printing nothing. *)
Definition fails (inv : Invocation) : string * option error :=
  (EmptyString, Some "exit status 1").

(** The tests of [Ftw] fail, the other commands succeed. *)
Definition testsFail (inv : Invocation) : string * option error :=
  match how inv, arguments inv with
  | Verbose, [_; _; "run"; _; _] => (EmptyString, Some "exit status 1")
  | _, _ => (EmptyString, None)
  end.

Definition noMatch (v : string) : list string := [].

Definition go1_19_2 (v : string) : list string := ["go1.19.2"; "1"; "19"; "2"].
Definition go2_0 (v : string) : list string := ["go2.0"; "2"; "0"; ""].

Definition manifest : list byte := String.list_byte_of_string "image: ${IMAGE} or ${IMAGE}".

Definition disk : Sample.Files := ("wasmplugin.yaml", manifest) :: Sample.disk.

End SampleTasks.

(** * Properties of the patch *)

(** ** The pass over the imports *)

Ltac by_name imp :=
  unfold patchImport;
  destruct (String.eqb_spec (Name imp) "fd_filestat_get") as [?Hfd | ?Hfd];
  [ | destruct (String.eqb_spec (Name imp) "path_filestat_get") as [?Hpath | ?Hpath] ].

Lemma renameImports_fmap (imports : list Import) :
  renameImports imports = patchImport <$> imports.
Proof.
  induction imports as [| imp rest IH]; simpl; [reflexivity |].
  now rewrite IH.
Qed.

Lemma patchImport_remap (imp : Import) : patchImport imp = remap remapTable imp.
Proof. destruct imp as [ns nm d]. reflexivity. Qed.

Lemma patchImport_Desc (imp : Import) : Desc (patchImport imp) = Desc imp.
Proof. by_name imp; reflexivity. Qed.

Lemma patchImport_idem (imp : Import) : patchImport (patchImport imp) = patchImport imp.
Proof. by_name imp; try reflexivity. unfold patchImport. simpl in *.
  destruct (String.eqb_spec (Name imp) "fd_filestat_get"); [contradiction |].
  destruct (String.eqb_spec (Name imp) "path_filestat_get"); [contradiction | reflexivity].
Qed.

Lemma renameImports_idem (imports : list Import) :
  renameImports (renameImports imports) = renameImports imports.
Proof.
  induction imports as [| imp rest IH]; simpl; [reflexivity |].
  now rewrite patchImport_idem, IH.
Qed.

Lemma renameImports_lookup (imports : list Import) (i : nat) :
  renameImports imports !! i = patchImport <$> imports !! i.
Proof. rewrite renameImports_fmap. apply list_lookup_fmap. Qed.

Lemma renameImports_length (imports : list Import) :
  length (renameImports imports) = length imports.
Proof. rewrite renameImports_fmap. apply length_fmap. Qed.

(** A rule that matches no entry of a list can be dropped from the table. *)
Lemma remap_skip (before after : list RemapRule) (r : RemapRule) (imp : Import) :
  Name imp ≠ oldName r →
  remap (before ++ r :: after) imp = remap (before ++ after) imp.
Proof.
  intros Hmiss. induction before as [| r0 before IH]; simpl.
  - unfold matchesRule. destruct (String.eqb_spec (Name imp) (oldName r)); [contradiction | reflexivity].
  - now rewrite IH.
Qed.

Lemma remap_delete (rules : list RemapRule) (i : nat) (r : RemapRule) (imp : Import) :
  rules !! i = Some r →
  Name imp ≠ oldName r →
  remap rules imp = remap (delete i rules) imp.
Proof.
  intros Hi Hmiss.
  rewrite <- (take_drop_middle rules i r Hi) at 1.
  rewrite delete_take_drop. now apply remap_skip.
Qed.

(** ** The patch as a whole *)

Lemma patchModule_with_table (mod_ : WasmModule) (n : Z) :
  patchModule mod_ n = patchModuleWith remapTable mod_ n.
Proof.
  unfold patchModule, patchModuleWith.
  destruct (resizeInitialMemory mod_ n) as [m | e | msg]; simpl; [| reflexivity ..].
  unfold patchImports. rewrite renameImports_fmap.
  rewrite (list_fmap_ext patchImport (remap remapTable) (ImportSection m));
    [reflexivity | intros i imp _; apply patchImport_remap].
Qed.

Lemma patchModuleWith_memory (rules : list RemapRule) (mod_ : WasmModule) (mem : Memory) (n : Z) :
  MemorySection mod_ = Some mem →
  patchModuleWith rules mod_ n = Ok (patchedWith rules mod_ mem n).
Proof.
  intros Hmem. unfold patchModuleWith, resizeInitialMemory. rewrite Hmem. reflexivity.
Qed.

Lemma patchModule_memory (mod_ : WasmModule) (mem : Memory) (n : Z) :
  MemorySection mod_ = Some mem →
  patchModule mod_ n = Ok (patchedWith remapTable mod_ mem n).
Proof. rewrite patchModule_with_table. apply patchModuleWith_memory. Qed.

Lemma patchModule_no_memory (mod_ : WasmModule) (n : Z) :
  MemorySection mod_ = None →
  patchModule mod_ n = Panic nilDereference.
Proof.
  intros Hmem. unfold patchModule, resizeInitialMemory. now rewrite Hmem.
Qed.

(** Whatever the page count, the minimum that is stored is a uint32. *)
Lemma uint32_range (n : Z) : (0 ≤ uint32 n < 2 ^ 32)%Z.
Proof. unfold uint32. apply Z.mod_pos_bound. lia. Qed.

(** ** The memory resize *)

(** C8. Resizing the initial memory to [n] pages twice in a row gives what
    resizing it once gives: the same module, or the same fault when the module
    declares no memory. *)
Theorem resize_idempotent (mod_ : WasmModule) (n : Z) :
  res_bind (resizeInitialMemory mod_ n) (λ m, resizeInitialMemory m n)
  = resizeInitialMemory mod_ n.
Proof.
  unfold resizeInitialMemory.
  destruct (MemorySection mod_) as [mem |]; reflexivity.
Qed.

(** C2, refuted as stated: a memory of (min 1, max 2) resized to 3 pages keeps
    its maximum of 2, so the module is left with minimum > maximum. *)
Lemma resize_above_maximum_counterexample :
  MemorySection Sample.bounded = Some {| Min := 1; Max := Some 2%Z |} ∧
  (3 > 2)%Z ∧
  resizeInitialMemory Sample.bounded 3 =
    Ok {| ImportSection := Sample.imports;
          MemorySection := Some {| Min := 3; Max := Some 2%Z |};
          OtherSections := Sample.sections |} ∧
  limitsOK {| Min := 3; Max := Some 2%Z |} = false.
Proof. repeat split. Qed.

(** C2, as amended. For a memory with a declared maximum [max], the resize
    to [n] pages writes the minimum only: the edit succeeds, the maximum is
    still [max], and minimum <= maximum holds afterwards exactly when the
    new minimum [uint32 n] is at most [max]. *)
Theorem resize_keeps_maximum (mod_ : WasmModule) (mem : Memory) (max n : Z) :
  MemorySection mod_ = Some mem →
  Max mem = Some max →
  ∃ mod', resizeInitialMemory mod_ n = Ok mod' ∧
          MemorySection mod' = Some {| Min := uint32 n; Max := Some max |} ∧
          (limitsOK {| Min := uint32 n; Max := Some max |} = true ↔ (uint32 n ≤ max)%Z).
Proof.
  intros Hmem Hmax. unfold resizeInitialMemory. rewrite Hmem, Hmax.
  eexists. split; [reflexivity |]. split; [reflexivity |].
  unfold limitsOK. simpl. apply Z.leb_le.
Qed.

Lemma resize_keeps_maximum_witness :
  ∃ mod', resizeInitialMemory Sample.bounded 2 = Ok mod' ∧
          MemorySection mod' = Some {| Min := uint32 2; Max := Some 2%Z |} ∧
          (limitsOK {| Min := uint32 2; Max := Some 2%Z |} = true ↔ (uint32 2 ≤ 2)%Z).
Proof.
  apply (resize_keeps_maximum Sample.bounded {| Min := 1; Max := Some 2%Z |} 2 2);
    reflexivity.
Defined.

(** ** The import renames *)

(** C3, refuted as stated: the same field imported from two different
    namespaces is renamed in both entries, so whichever namespace a rule is
    meant for, an entry of another namespace is rewritten too. *)
Lemma remap_other_namespace_counterexample :
  Module Sample.fromPreview1 ≠ Module Sample.fromUnstable ∧
  Name Sample.fromPreview1 = Name Sample.fromUnstable ∧
  patchImport Sample.fromPreview1 =
    {| Module := "wasi_snapshot_preview1"; Name := "fd_fdstat_get"; Desc := DescFunc 3 |} ∧
  patchImport Sample.fromUnstable =
    {| Module := "wasi_unstable"; Name := "fd_fdstat_get"; Desc := DescFunc 3 |} ∧
  patchImport Sample.fromPreview1 ≠ Sample.fromPreview1 ∧
  patchImport Sample.fromUnstable ≠ Sample.fromUnstable.
Proof. repeat split; discriminate. Qed.

(** C3, as amended. A rename rewrites an entry exactly when the entry's
    field name equals the field name the rule tests; the entry's module
    namespace is never compared, so it plays no part in the match. *)
Theorem remap_matches_on_field_only (imp : Import) :
  patchImport imp ≠ imp
  ↔ Name imp = "fd_filestat_get" ∨ Name imp = "path_filestat_get".
Proof.
  split.
  - intros Hchanged. by_name imp; [now left | now right |].
    exfalso. apply Hchanged. unfold patchImport.
    destruct (String.eqb_spec (Name imp) "fd_filestat_get"); [contradiction |].
    destruct (String.eqb_spec (Name imp) "path_filestat_get"); [contradiction | reflexivity].
  - intros Hname Hsame. apply (f_equal Name) in Hsame. revert Hsame.
    by_name imp; simpl.
    + rewrite Hfd. discriminate.
    + rewrite Hpath. discriminate.
    + destruct Hname; contradiction.
Qed.

(** C4, refuted as stated: of two entries that import the same function,
    the second one is renamed as well. *)
Lemma remap_duplicates_counterexample :
  ImportSection Sample.duplicated !! 0%nat = Some Sample.fromPreview1 ∧
  ImportSection Sample.duplicated !! 1%nat = Some Sample.fromPreview1 ∧
  renameImports (ImportSection Sample.duplicated) !! 1%nat =
    Some {| Module := "wasi_snapshot_preview1"; Name := "fd_fdstat_get"; Desc := DescFunc 3 |} ∧
  renameImports (ImportSection Sample.duplicated) !! 1%nat
    ≠ ImportSection Sample.duplicated !! 1%nat.
Proof. repeat split; discriminate. Qed.

(** C4, as amended. The pass leaves no match behind: every entry whose
    field name is the one a rule tests is rewritten by that rule, at
    whatever position it stands and however many entries before it matched
    the same rule. *)
Theorem remap_rewrites_every_match (imports : list Import) (i k : nat)
    (imp : Import) (r : RemapRule) :
  remapTable !! k = Some r →
  imports !! i = Some imp →
  Name imp = oldName r →
  renameImports imports !! i = Some (applyRule r imp).
Proof.
  intros Hr Hi Hname. rewrite renameImports_lookup, Hi. simpl. f_equal.
  destruct k as [| [| k]]; simpl in Hr; inversion Hr; subst r; clear Hr;
    simpl in Hname; unfold patchImport; rewrite Hname; reflexivity.
Qed.

Lemma remap_rewrites_every_match_witness :
  renameImports (ImportSection Sample.duplicated) !! 1%nat =
    Some (applyRule {| oldName := "fd_filestat_get"; newModule := None;
                       newName := "fd_fdstat_get" |} Sample.fromPreview1).
Proof.
  apply (remap_rewrites_every_match (ImportSection Sample.duplicated) 1 0); reflexivity.
Defined.

(** C5. The patch (resize and renames together) keeps the number of import
    entries, keeps every entry at its position, keeps every entry's
    description (its kind and, for a function, its type index), and leaves
    all sections other than Import and Memory as they were. This holds for
    any number of import entries, two or more included. *)
Theorem patch_preserves_import_layout (mod_ mod' : WasmModule) (n : Z) :
  patchModule mod_ n = Ok mod' →
  length (ImportSection mod') = length (ImportSection mod_) ∧
  (∀ i : nat, ImportSection mod' !! i = patchImport <$> ImportSection mod_ !! i) ∧
  (∀ i : nat, Desc <$> ImportSection mod' !! i = Desc <$> ImportSection mod_ !! i) ∧
  OtherSections mod' = OtherSections mod_.
Proof.
  unfold patchModule, resizeInitialMemory.
  destruct (MemorySection mod_) as [mem |]; simpl; [| discriminate].
  intros Hok. inversion Hok; subst mod'; clear Hok. simpl.
  split; [apply renameImports_length |].
  split; [intros i; apply renameImports_lookup |].
  split; [| reflexivity].
  intros i. rewrite renameImports_lookup.
  destruct (ImportSection mod_ !! i) as [imp |]; simpl; [| reflexivity].
  now rewrite patchImport_Desc.
Qed.

Lemma patch_preserves_import_layout_witness :
  length (ImportSection (patchedWith remapTable Sample.bounded {| Min := 1; Max := Some 2%Z |} 2100))
    = length (ImportSection Sample.bounded) ∧
  (∀ i : nat,
     ImportSection (patchedWith remapTable Sample.bounded {| Min := 1; Max := Some 2%Z |} 2100) !! i
     = patchImport <$> ImportSection Sample.bounded !! i) ∧
  (∀ i : nat,
     Desc <$> ImportSection (patchedWith remapTable Sample.bounded {| Min := 1; Max := Some 2%Z |} 2100) !! i
     = Desc <$> ImportSection Sample.bounded !! i) ∧
  OtherSections (patchedWith remapTable Sample.bounded {| Min := 1; Max := Some 2%Z |} 2100)
    = OtherSections Sample.bounded.
Proof.
  apply (patch_preserves_import_layout Sample.bounded _ 2100). reflexivity.
Defined.

(** C10. The whole patch is idempotent: patching a module twice gives what
    patching it once gives (the same module, or the same fault), because no
    name a rule writes is a name a rule tests. *)
Theorem patch_idempotent (mod_ : WasmModule) (n : Z) :
  res_bind (patchModule mod_ n) (λ m, patchModule m n) = patchModule mod_ n ∧
  (∀ (j k : nat) (r r' : RemapRule),
     remapTable !! j = Some r → remapTable !! k = Some r' → newName r ≠ oldName r').
Proof.
  split.
  - unfold patchModule, resizeInitialMemory.
    destruct (MemorySection mod_) as [mem |]; simpl; [| reflexivity].
    unfold patchImports. simpl. now rewrite renameImports_idem.
  - intros j k r r' Hj Hk.
    destruct j as [| [| j]]; simpl in Hj; inversion Hj; subst r;
      destruct k as [| [| k]]; simpl in Hk; inversion Hk; subst r';
      simpl; discriminate.
Qed.

(** ** The run *)

Lemma ruleMisses_spec (r : RemapRule) (imports : list Import) (imp : Import) :
  ruleMisses r imports = true → imp ∈ imports → Name imp ≠ oldName r.
Proof.
  unfold ruleMisses. intros Hall Hin.
  apply list_elem_of_In in Hin.
  rewrite forallb_forall in Hall. specialize (Hall imp Hin).
  unfold matchesRule in Hall.
  destruct (String.eqb_spec (Name imp) (oldName r)); [discriminate | assumption].
Qed.

Section RunProperties.
Context {host : Collaborators}.
Implicit Types (w : World) (inPath outPath : string) (n : Z).
Implicit Types (raw : list byte).

Lemma patchWasm_decode_error w inPath outPath n raw e :
  os_ReadFile w inPath = inl raw →
  binary_DecodeModule raw CoreFeaturesV2 = inr e →
  patchWasm inPath outPath n w = (w, [EvReadFile inPath; EvDecodeModule raw], Err e).
Proof.
  intros Hread Hdec.
  unfold patchWasm, bind, readFile, decodeModule. now rewrite Hread, Hdec.
Qed.

Lemma patchWasm_fault w inPath outPath n raw (mod_ : WasmModule) msg :
  os_ReadFile w inPath = inl raw →
  binary_DecodeModule raw CoreFeaturesV2 = inl mod_ →
  patchModule mod_ n = Panic msg →
  patchWasm inPath outPath n w = (w, [EvReadFile inPath; EvDecodeModule raw], Panic msg).
Proof.
  intros Hread Hdec Hpatch.
  unfold patchWasm, bind, readFile, decodeModule, liftRes.
  now rewrite Hread, Hdec, Hpatch.
Qed.

Lemma patchWasm_patched w inPath outPath n raw (mod_ mod' : WasmModule) :
  os_ReadFile w inPath = inl raw →
  binary_DecodeModule raw CoreFeaturesV2 = inl mod_ →
  patchModule mod_ n = Ok mod' →
  patchWasm inPath outPath n w =
    ((os_WriteFile w outPath (binary_EncodeModule mod')).1,
     [EvReadFile inPath; EvDecodeModule raw; EvEncodeModule mod';
      EvWriteFile outPath (binary_EncodeModule mod')],
     match (os_WriteFile w outPath (binary_EncodeModule mod')).2 with
     | None => Ok tt
     | Some err => Err err
     end).
Proof.
  intros Hread Hdec Hpatch.
  unfold patchWasm, bind, readFile, decodeModule, liftRes, encodeModule, writeFile.
  rewrite Hread, Hdec, Hpatch.
  destruct (os_WriteFile w outPath (binary_EncodeModule mod')) as [w' [err |]]; reflexivity.
Qed.

(** C6. When decoding the input buffer fails, the run ends with the decode
    error right after the decode call: no patch is applied, the encoder and
    the file writer are never called, and the file system is as it was. *)
Theorem decode_failure_aborts_run w inPath outPath n raw e :
  os_ReadFile w inPath = inl raw →
  binary_DecodeModule raw CoreFeaturesV2 = inr e →
  patchWasm inPath outPath n w = (w, [EvReadFile inPath; EvDecodeModule raw], Err e) ∧
  written (patchWasm inPath outPath n w) = [].
Proof.
  intros Hread Hdec.
  rewrite (patchWasm_decode_error _ _ _ _ _ _ Hread Hdec). split; reflexivity.
Qed.

(** C1, as amended. The resize performs no validation. For a module that
    declares a memory, every page count, negative or beyond the format's
    limit included, is accepted: the minimum becomes the count converted to
    32 bits and the run goes on to write the encoded module. For a module
    that declares no memory, the run does not succeed and produces no
    output: the file system is untouched. *)
Theorem resize_performs_no_check w inPath outPath n raw (mod_ : WasmModule) :
  os_ReadFile w inPath = inl raw →
  binary_DecodeModule raw CoreFeaturesV2 = inl mod_ →
  (∀ mem : Memory, MemorySection mod_ = Some mem →
     resizeInitialMemory mod_ n =
       Ok {| ImportSection := ImportSection mod_;
             MemorySection := Some {| Min := uint32 n; Max := Max mem |};
             OtherSections := OtherSections mod_ |} ∧
     written (patchWasm inPath outPath n w) =
       [(outPath, binary_EncodeModule (patchedWith remapTable mod_ mem n))]) ∧
  (MemorySection mod_ = None →
     (patchWasm inPath outPath n w).1.1 = w ∧
     written (patchWasm inPath outPath n w) = [] ∧
     (patchWasm inPath outPath n w).2 ≠ Ok tt).
Proof.
  intros Hread Hdec. split.
  - intros mem Hmem. split.
    + unfold resizeInitialMemory. now rewrite Hmem.
    + rewrite (patchWasm_patched _ _ _ _ _ _ _ Hread Hdec (patchModule_memory _ _ n Hmem)).
      reflexivity.
  - intros Hmem.
    rewrite (patchWasm_fault _ _ _ _ _ _ _ Hread Hdec (patchModule_no_memory _ n Hmem)).
    repeat split. discriminate.
Qed.

(** C7, as amended. A rule is matched on the field name alone. A rule
    whose field name occurs in no import entry, under any namespace, is
    skipped without any failure: the patch gives what the patch without
    that rule gives, and for a module that declares a memory the run writes
    that module and ends as the write ends. *)
Theorem unmatched_rule_is_skipped w inPath outPath n raw (mod_ : WasmModule) (k : nat) (r : RemapRule) :
  os_ReadFile w inPath = inl raw →
  binary_DecodeModule raw CoreFeaturesV2 = inl mod_ →
  remapTable !! k = Some r →
  ruleMisses r (ImportSection mod_) = true →
  patchModule mod_ n = patchModuleWith (delete k remapTable) mod_ n ∧
  (∀ mem : Memory, MemorySection mod_ = Some mem →
     written (patchWasm inPath outPath n w) =
       [(outPath, binary_EncodeModule (patchedWith (delete k remapTable) mod_ mem n))] ∧
     (patchWasm inPath outPath n w).2 =
       match (os_WriteFile w outPath
                (binary_EncodeModule (patchedWith (delete k remapTable) mod_ mem n))).2 with
       | None => Ok tt
       | Some err => Err err
       end).
Proof.
  intros Hread Hdec Hk Hmiss.
  assert (Hsame : remap remapTable <$> ImportSection mod_
                  = remap (delete k remapTable) <$> ImportSection mod_).
  { apply list_fmap_ext. intros i imp Hi.
    apply (remap_delete _ _ _ _ Hk).
    apply (ruleMisses_spec _ _ _ Hmiss). now apply list_elem_of_lookup_2 in Hi. }
  assert (Hpatch : patchModule mod_ n = patchModuleWith (delete k remapTable) mod_ n).
  { rewrite patchModule_with_table. unfold patchModuleWith, resizeInitialMemory.
    destruct (MemorySection mod_); [| reflexivity].
    cbn [res_bind ImportSection MemorySection OtherSections]. now rewrite Hsame. }
  split; [exact Hpatch |].
  intros mem Hmem.
  rewrite (patchModuleWith_memory _ _ _ n Hmem) in Hpatch.
  rewrite (patchWasm_patched _ _ _ _ _ _ _ Hread Hdec Hpatch).
  split; reflexivity.
Qed.

End RunProperties.

(** ** The run on concrete inputs *)

(** C1, refuted as stated: a negative page count and one beyond the limit
    of the format are both accepted, and the run with the negative count
    succeeds and writes its output; a module without a memory makes the
    resize fault, which is no error result. *)
Lemma resize_unchecked_counterexample :
  (-1 < 0)%Z ∧
  resizeInitialMemory Sample.bounded (-1) =
    Ok {| ImportSection := Sample.imports;
          MemorySection := Some {| Min := 4294967295; Max := Some 2%Z |};
          OtherSections := Sample.sections |} ∧
  (70000 > MemoryLimitPages)%Z ∧
  resizeInitialMemory Sample.bounded 70000 =
    Ok {| ImportSection := Sample.imports;
          MemorySection := Some {| Min := 70000; Max := Some 2%Z |};
          OtherSections := Sample.sections |} ∧
  MemorySection Sample.moduleNoMemory = None ∧
  resizeInitialMemory Sample.moduleNoMemory 2100 = Panic nilDereference ∧
  (patchWasm (host := Sample.env) "build/mainraw.wasm" "build/main.wasm" (-1) Sample.disk).2
    = Ok tt ∧
  written (patchWasm (host := Sample.env) "build/mainraw.wasm" "build/main.wasm" (-1) Sample.disk)
    = [("build/main.wasm", Sample.header ++ [xff])].
Proof. repeat split. Qed.

Lemma resize_performs_no_check_witness :
  written (patchWasm (host := Sample.env) "build/mainraw.wasm" "build/main.wasm" (-1) Sample.disk)
    = [("build/main.wasm",
        Sample.encode (patchedWith remapTable Sample.moduleTwoPages
                         {| Min := 2; Max := None |} (-1)))] ∧
  written (patchWasm (host := Sample.env) "build/nomem.wasm" "build/main.wasm" 2100 Sample.disk)
    = [].
Proof.
  split.
  - apply (resize_performs_no_check (host := Sample.env) Sample.disk
             "build/mainraw.wasm" "build/main.wasm" (-1)
             Sample.rawModule Sample.moduleTwoPages eq_refl eq_refl).
    reflexivity.
  - apply (resize_performs_no_check (host := Sample.env) Sample.disk
             "build/nomem.wasm" "build/main.wasm" 2100
             Sample.rawNoMemory Sample.moduleNoMemory eq_refl eq_refl).
    reflexivity.
Defined.

Lemma decode_failure_aborts_run_witness :
  patchWasm (host := Sample.env) "build/short.wasm" "build/main.wasm" 2100 Sample.disk
    = (Sample.disk,
       [EvReadFile "build/short.wasm"; EvDecodeModule Sample.rawTruncated],
       Err "invalid magic number") ∧
  written (patchWasm (host := Sample.env) "build/short.wasm" "build/main.wasm" 2100 Sample.disk)
    = [].
Proof.
  apply (decode_failure_aborts_run (host := Sample.env) Sample.disk
           "build/short.wasm" "build/main.wasm" 2100 Sample.rawTruncated
           "invalid magic number"); reflexivity.
Defined.

Lemma unmatched_rule_is_skipped_witness :
  patchModule Sample.moduleTwoPages 2100
    = patchModuleWith (delete 1%nat remapTable) Sample.moduleTwoPages 2100 ∧
  (patchWasm (host := Sample.env) "build/mainraw.wasm" "build/main.wasm" 2100 Sample.disk).2
    = Ok tt.
Proof.
  destruct (unmatched_rule_is_skipped (host := Sample.env) Sample.disk
              "build/mainraw.wasm" "build/main.wasm" 2100
              Sample.rawModule Sample.moduleTwoPages 1 Sample.pathRule
              eq_refl eq_refl eq_refl eq_refl) as [Hpatch Hrun].
  split; [exact Hpatch |].
  exact (proj2 (Hrun {| Min := 2; Max := None |} eq_refl)).
Defined.

(** C7, refuted as stated. The same field is imported from one namespace
    in a first module and from another namespace in a second, and neither
    module imports path_filestat_get. Whichever namespace a rule for
    fd_filestat_get names, its (namespace, field) pair matches no entry of
    one of the two modules, and yet the entry of that module is renamed: the
    output is not the input. And in a module without imports and without a
    memory no rule matches anything, and yet the patch does not succeed. *)
Lemma unmatched_pair_counterexample :
  Module Sample.fromPreview1 ≠ Module Sample.fromUnstable ∧
  Name Sample.fromPreview1 = "fd_filestat_get" ∧
  Name Sample.fromUnstable = "fd_filestat_get" ∧
  patchModule
    {| ImportSection := [Sample.fromPreview1];
       MemorySection := Some {| Min := 2; Max := None |};
       OtherSections := Sample.sections |} 2
  = Ok {| ImportSection :=
            [ {| Module := "wasi_snapshot_preview1"; Name := "fd_fdstat_get";
                 Desc := DescFunc 3 |} ];
          MemorySection := Some {| Min := 2; Max := None |};
          OtherSections := Sample.sections |} ∧
  patchModule
    {| ImportSection := [Sample.fromUnstable];
       MemorySection := Some {| Min := 2; Max := None |};
       OtherSections := Sample.sections |} 2
  = Ok {| ImportSection :=
            [ {| Module := "wasi_unstable"; Name := "fd_fdstat_get";
                 Desc := DescFunc 3 |} ];
          MemorySection := Some {| Min := 2; Max := None |};
          OtherSections := Sample.sections |} ∧
  ImportSection
    {| ImportSection := [Sample.fromUnstable];
       MemorySection := Some {| Min := 2; Max := None |};
       OtherSections := Sample.sections |}
  ≠ [ {| Module := "wasi_unstable"; Name := "fd_fdstat_get"; Desc := DescFunc 3 |} ] ∧
  patchModule
    {| ImportSection := []; MemorySection := None; OtherSections := Sample.sections |} 2100
  = Panic nilDereference.
Proof. repeat split; discriminate. Qed.

(** * Properties of the build tasks *)

(** ** Strings *)

Lemma prefix_empty (s : string) : String.prefix EmptyString s = true.
Proof. destruct s; reflexivity. Qed.

Lemma prefix_append (p s : string) : String.prefix p (p +:+ s) = true.
Proof.
  induction p as [| a p IH]; simpl; [apply prefix_empty |].
  destruct (ascii_dec a a); [exact IH | contradiction].
Qed.

Lemma prefix_append_r (p s t : string) :
  String.prefix p s = true → String.prefix p (s +:+ t) = true.
Proof.
  revert s. induction p as [| a p IH]; intros s Hp; [apply prefix_empty |].
  destruct s as [| b s]; simpl in *; [discriminate |].
  destruct (ascii_dec a b); [now apply IH | discriminate].
Qed.

Lemma strings_Contains_unfold (s substr : string) :
  strings_Contains s substr =
    String.prefix substr s ||
    match s with
    | EmptyString => false
    | String _ rest => strings_Contains rest substr
    end.
Proof. destruct s; reflexivity. Qed.

Lemma strings_Contains_append_l (t s substr : string) :
  strings_Contains s substr = true → strings_Contains (t +:+ s) substr = true.
Proof.
  intros Hs. induction t as [| c t IH]; simpl; [exact Hs |].
  rewrite IH. apply orb_true_r.
Qed.

Lemma strings_Contains_append_r (s t substr : string) :
  strings_Contains s substr = true → strings_Contains (s +:+ t) substr = true.
Proof.
  induction s as [| c s IH]; intros Hs.
  - simpl in Hs. rewrite orb_false_r in Hs.
    destruct substr; [| discriminate].
    simpl. rewrite strings_Contains_unfold, prefix_empty. reflexivity.
  - rewrite strings_Contains_unfold in Hs. apply orb_true_iff in Hs as [Hp | Hrest].
    + pose proof (prefix_append_r substr (String c s) t Hp) as Hp'.
      change (String c s +:+ t) with (String c (s +:+ t)) in *.
      rewrite strings_Contains_unfold, Hp'. reflexivity.
    + change (String c s +:+ t) with (String c (s +:+ t)).
      rewrite strings_Contains_unfold, (IH Hrest). apply orb_true_r.
Qed.

Lemma strings_Contains_middle (a substr b : string) :
  strings_Contains (a +:+ substr +:+ b) substr = true.
Proof.
  apply strings_Contains_append_l.
  rewrite strings_Contains_unfold, prefix_append. reflexivity.
Qed.




(** The loop never indexes outside the slice: with [done] strings consumed
    and [rest] to go, it applies the pairs of [rest] in order. *)
Lemma replaceLoop_pairs (rest done : list string) (i : nat) (patched : string) :
  length done = (2 * i)%nat →
  replaceLoop (done ++ rest) i (length rest / 2) patched
  = Ok (replacePairs patched rest).
Proof.
  revert rest done i patched.
  fix IH 1. intros [| k [| v rest]] done i patched Hdone; [reflexivity .. |].
  replace (length (k :: v :: rest) / 2)%nat with (S (length rest / 2)).
  2: { simpl length. change (S (S (length rest))) with (1 * 2 + length rest)%nat.
       rewrite Nat.div_add_l by lia. reflexivity. }
  cbn [replaceLoop]. unfold at_.
  rewrite (list_lookup_middle done (v :: rest) k (2 * i)) by (symmetry; exact Hdone).
  cbn [res_bind].
  replace (done ++ k :: v :: rest) with ((done ++ [k]) ++ v :: rest)
    by (now rewrite <- app_assoc).
  rewrite (list_lookup_middle (done ++ [k]) rest v (2 * i + 1))
    by (rewrite length_app; simpl; lia).
  cbn [res_bind].
  replace ((done ++ [k]) ++ v :: rest) with ((done ++ [k; v]) ++ rest)
    by (now rewrite <- !app_assoc).
  cbn [replacePairs].
  apply IH. rewrite length_app. simpl. lia.
Qed.

(** ** The patch, beyond the frozen claims *)

(** X1. After the patch no import entry carries a name that the switch tests:
    the two WASI functions are gone from the import section. *)
Theorem patched_imports_drop_old_names (mod_ mod' : WasmModule) (n : Z) (imp : Import) :
  patchModule mod_ n = Ok mod' →
  imp ∈ ImportSection mod' →
  Name imp ≠ "fd_filestat_get" ∧ Name imp ≠ "path_filestat_get".
Proof.
  unfold patchModule, resizeInitialMemory.
  destruct (MemorySection mod_) as [mem |]; simpl; [| discriminate].
  intros Hok Hin. inversion Hok; subst mod'; clear Hok. simpl in Hin.
  rewrite renameImports_fmap in Hin.
  apply list_elem_of_fmap in Hin as (old & -> & _).
  by_name old; simpl; split; congruence.
Qed.

Lemma patched_imports_drop_old_names_witness :
  Name {| Module := "wasi_snapshot_preview1"; Name := "fd_fdstat_get"; Desc := DescFunc 3 |}
    ≠ "fd_filestat_get" ∧
  Name {| Module := "wasi_snapshot_preview1"; Name := "fd_fdstat_get"; Desc := DescFunc 3 |}
    ≠ "path_filestat_get".
Proof.
  apply (patched_imports_drop_old_names Sample.moduleTwoPages
           (patchedWith remapTable Sample.moduleTwoPages {| Min := 2; Max := None |} 2100)
           2100).
  - reflexivity.
  - apply list_elem_of_here.
Defined.

Section PatchRunMore.
Context {host : Collaborators}.

(** X2. When the input file cannot be read, [patchWasm] returns the error of the
    read at once: nothing is decoded or written. *)
Theorem read_failure_aborts_run (w : World) (inPath outPath : string) (n : Z) (e : error) :
  os_ReadFile w inPath = inr e →
  patchWasm inPath outPath n w = (w, [EvReadFile inPath], Err e).
Proof.
  intros Hread. unfold patchWasm, bind, readFile. now rewrite Hread.
Qed.

End PatchRunMore.

Lemma read_failure_aborts_run_witness :
  patchWasm (host := Sample.env) "build/absent.wasm" "build/main.wasm" 2100 Sample.disk
  = (Sample.disk, [EvReadFile "build/absent.wasm"], Err "no such file or directory").
Proof.
  apply (read_failure_aborts_run (host := Sample.env)). reflexivity.
Defined.

(** ** The version checks *)

Section VersionChecks.
Context {bh : BuildHost}.

(** X3. A development build of TinyGo passes the check whatever version it
    reports: "-dev" anywhere in the output of [tinygo version] is enough. *)
Theorem tinygo_dev_build_accepted (w w1 : World) (before after : string) :
  sh_exec w (versionOf "tinygo") = (w1, before +:+ "-dev" +:+ after, None) →
  checkTinygoVersion w = (w1, [ShCommand (versionOf "tinygo")], Ok tt).
Proof.
  intros Hexec.
  unfold checkTinygoVersion, sh_Output, runCommand, sh_bind.
  change (mkInvocation Captured ∅ "tinygo" ["version"]) with (versionOf "tinygo").
  rewrite Hexec. cbn [fst snd].
  now rewrite strings_Contains_middle.
Qed.

(** X4. The release check is a prefix test: an output that starts with
    "tinygo version 0.26" passes whatever follows, further digits of the
    minor version included. *)
Theorem tinygo_release_is_prefix_test (w w1 : World) (after : string) :
  sh_exec w (versionOf "tinygo") = (w1, "tinygo version 0.26" +:+ after, None) →
  checkTinygoVersion w = (w1, [ShCommand (versionOf "tinygo")], Ok tt).
Proof.
  intros Hexec.
  unfold checkTinygoVersion, sh_Output, runCommand, sh_bind.
  change (mkInvocation Captured ∅ "tinygo" ["version"]) with (versionOf "tinygo").
  rewrite Hexec. cbn [fst snd].
  destruct (strings_Contains ("tinygo version 0.26" +:+ after) "-dev"); [reflexivity |].
  unfold strings_HasPrefix.
  change ("tinygo version " +:+ tinygoMinorVersion) with "tinygo version 0.26".
  now rewrite prefix_append.
Qed.

Lemma splitBase_minGoVersion : splitBase minGoVersion = ["1"; "19"; "0"].
Proof. reflexivity. Qed.

Lemma compareLoop_components (major minor patch : string) :
  (strconv_Atoi "1").1 = 1%Z →
  (strconv_Atoi "19").1 = 19%Z →
  (strconv_Atoi "0").1 = 0%Z →
  compareLoop ["1"; "19"; "0"] [major; minor; patch] 0 3 =
    if ((1 <=? (strconv_Atoi major).1) && (19 <=? (strconv_Atoi minor).1)
        && (0 <=? (strconv_Atoi patch).1))%Z
    then Ok tt
    else Err (goVersionError [major; minor; patch]).
Proof.
  intros H1 H19 H0. cbn [compareLoop at_ lookup list_lookup res_bind].
  rewrite H1, H19, H0.
  rewrite !Z.gtb_ltb.
  destruct (Z.ltb_spec (strconv_Atoi major).1 1) as [Hmaj | Hmaj];
    destruct (Z.leb_spec 1 (strconv_Atoi major).1) as [Hmaj' | Hmaj']; try lia;
    [reflexivity |].
  destruct (Z.ltb_spec (strconv_Atoi minor).1 19) as [Hmin | Hmin];
    destruct (Z.leb_spec 19 (strconv_Atoi minor).1) as [Hmin' | Hmin']; try lia;
    [reflexivity |].
  destruct (Z.ltb_spec (strconv_Atoi patch).1 0) as [Hpat | Hpat];
    destruct (Z.leb_spec 0 (strconv_Atoi patch).1) as [Hpat' | Hpat']; try lia;
    reflexivity.
Qed.

(** X5. [checkGoVersion] compares the installed version with 1.19.0 component
    by component, not as a whole: it passes exactly when the major number
    is at least 1, the minor at least 19 and the patch at least 0 (a missing
    patch counts as 0). A version with a newer major and an older minor,
    such as 2.0, is refused. *)
Theorem go_version_compared_per_component (w w1 : World)
    (v whole major minor patch : string) :
  sh_exec w (versionOf "go") = (w1, v, None) →
  regexp_FindStringSubmatch versionRegex v = [whole; major; minor; patch] →
  (strconv_Atoi "1").1 = 1%Z →
  (strconv_Atoi "19").1 = 19%Z →
  (strconv_Atoi "0").1 = 0%Z →
  ((checkGoVersion w).2 = Ok tt ↔
     (1 ≤ (strconv_Atoi major).1)%Z ∧ (19 ≤ (strconv_Atoi minor).1)%Z ∧
     (0 ≤ (strconv_Atoi (if String.eqb patch "" then "0" else patch)).1)%Z) ∧
  ((checkGoVersion w).2 ≠ Ok tt →
     (checkGoVersion w).2 =
       Err (goVersionError [major; minor; if String.eqb patch "" then "0" else patch])).
Proof.
  intros Hexec Hmatch H1 H19 H0.
  unfold checkGoVersion, sh_Output, runCommand, sh_bind.
  change (mkInvocation Captured ∅ "go" ["version"]) with (versionOf "go").
  rewrite Hexec. cbn [fst snd]. rewrite Hmatch. cbn [length Nat.eqb negb drop].
  rewrite splitBase_minGoVersion.
  set (patch' := if String.eqb patch "" then "0" else patch).
  assert (Hfill : fillPatch [major; minor; patch] = Ok [major; minor; patch']).
  { unfold fillPatch, at_, patch'. cbn. now destruct (String.eqb patch ""). }
  rewrite Hfill. cbn [res_bind snd app].
  rewrite (compareLoop_components major minor patch' H1 H19 H0).
  destruct (Z.leb_spec 1 (strconv_Atoi major).1);
    destruct (Z.leb_spec 19 (strconv_Atoi minor).1);
    destruct (Z.leb_spec 0 (strconv_Atoi patch').1); cbn [andb];
    split; try (split; [intros; repeat split; (lia || discriminate) | intros []; lia || reflexivity]);
    try (intros Hne; (reflexivity || now contradiction Hne)).
Qed.

(** X6. [checkGoVersion] never faults on an index: whatever [go version] prints
    and whatever the regular expression finds in it, the run ends with nil
    or with an error. *)
Theorem checkGoVersion_never_faults (w : World) (msg : string) :
  (checkGoVersion w).2 ≠ Panic msg.
Proof.
  unfold checkGoVersion, sh_Output, runCommand, sh_bind.
  destruct (sh_exec w (mkInvocation Captured ∅ "go" ["version"])) as [[w1 out] [err |]];
    cbn [fst snd]; [discriminate |].
  destruct (regexp_FindStringSubmatch versionRegex out)
    as [| whole [| major [| minor [| patch [| extra more]]]]];
    cbn [length Nat.eqb negb]; try discriminate.
  cbn [drop]. rewrite splitBase_minGoVersion.
  unfold fillPatch, at_. cbn [lookup list_lookup res_bind].
  destruct (String.eqb patch ""); cbn [res_bind snd app compareLoop at_ lookup list_lookup list_insert insert];
    repeat match goal with |- context [if ?c then _ else _] => destruct c end;
    discriminate.
Qed.

(** X7. [init] stops at the first check that fails: when the TinyGo check
    returns an error, the error is printed and the process exits with
    status 1, and [go version] is never run. *)
Theorem init_stops_at_first_failure (w w1 : World) (evs : list ShEvent) (e : error) :
  checkTinygoVersion w = (w1, evs, Err e) →
  init w = (w1, evs ++ [ShPrintf ("Error: " +:+ e +:+ newline); ShExit 1], Ok tt).
Proof.
  intros Hcheck. unfold init, checkOrExit, sh_bind, errorOf.
  rewrite Hcheck. reflexivity.
Qed.

End VersionChecks.

(** ** Build *)

Section BuildProperties.
Context {bh : BuildHost}.

Lemma initialPagesOf_default :
  os_Getenv "INITIAL_PAGES" = "" → initialPagesOf = Ok 2100%Z.
Proof. intros Henv. unfold initialPagesOf. now rewrite Henv. Qed.

Lemma initialPagesOf_override (n : Z) :
  os_Getenv "INITIAL_PAGES" ≠ "" →
  strconv_Atoi (os_Getenv "INITIAL_PAGES") = (n, None) →
  initialPagesOf = Ok n.
Proof.
  intros Henv Hatoi. unfold initialPagesOf.
  destruct (String.eqb_spec (os_Getenv "INITIAL_PAGES") ""); [contradiction |].
  now rewrite Hatoi.
Qed.

(** Once the directory is made, the page count known and the compilation
    done, [Build] is the run of [patchWasm] on build/mainraw.wasm. *)
Lemma Build_compiled (w w1 w2 : World) (n : Z) (wd out : string) :
  os_MkdirAll w "build" = (w1, None) →
  initialPagesOf = Ok n →
  os_Getwd w1 = inl wd →
  sh_exec w1 (compileCommand wd) = (w2, out, None) →
  Build w =
    ((patchWasm (filepath_Join ["build"; "mainraw.wasm"])
                (filepath_Join ["build"; "main.wasm"]) n w2).1.1,
     [ShMkdirAll "build"; ShCommand (compileCommand wd)]
     ++ (ShPatch <$> (patchWasm (filepath_Join ["build"; "mainraw.wasm"])
                                (filepath_Join ["build"; "main.wasm"]) n w2).1.2),
     (patchWasm (filepath_Join ["build"; "mainraw.wasm"])
                (filepath_Join ["build"; "main.wasm"]) n w2).2).
Proof.
  intros Hmk Hpages Hwd Hrun.
  unfold Build, sh_RunV, sh_RunWithV, runCommand, mkdirAll, getwd, patching, sh_bind.
  rewrite Hmk, Hpages. cbn [fst snd]. rewrite Hwd.
  change (mkInvocation Verbose ∅ "docker" _) with (compileCommand wd).
  rewrite Hrun. cbn [snd failWith sh_ret].
  destruct (patchWasm _ _ n w2) as [[w3 evs] r]. reflexivity.
Qed.

(** X8. An INITIAL_PAGES that is no integer stops [Build] before anything is
    compiled or patched: only the build directory has been made. *)
Theorem Build_rejects_bad_page_count (w w1 : World) (v : Z) (err : error) :
  os_MkdirAll w "build" = (w1, None) →
  os_Getenv "INITIAL_PAGES" ≠ "" →
  strconv_Atoi (os_Getenv "INITIAL_PAGES") = (v, Some err) →
  Build w = (w1, [ShMkdirAll "build"], Err err).
Proof.
  intros Hmk Henv Hatoi.
  unfold Build, sh_bind, mkdirAll, initialPagesOf.
  rewrite Hmk.
  destruct (String.eqb_spec (os_Getenv "INITIAL_PAGES") ""); [contradiction |].
  now rewrite Hatoi.
Qed.

(** X9. When the compilation fails, [Build] returns its error and the patcher
    never runs: no file is read, decoded or written by [patchWasm]. *)
Theorem Build_compile_failure_skips_patch (w w1 w2 : World) (n : Z)
    (wd out : string) (err : error) :
  os_MkdirAll w "build" = (w1, None) →
  initialPagesOf = Ok n →
  os_Getwd w1 = inl wd →
  sh_exec w1 (compileCommand wd) = (w2, out, Some err) →
  Build w = (w2, [ShMkdirAll "build"; ShCommand (compileCommand wd)], Err err).
Proof.
  intros Hmk Hpages Hwd Hrun.
  unfold Build, sh_RunV, sh_RunWithV, runCommand, mkdirAll, getwd, sh_bind.
  rewrite Hmk, Hpages. cbn [fst snd]. rewrite Hwd.
  change (mkInvocation Verbose ∅ "docker" _) with (compileCommand wd).
  now rewrite Hrun.
Qed.

(** X10. Without INITIAL_PAGES, [Build] patches build/mainraw.wasm into
    build/main.wasm with 2100 pages: after the compilation it makes the
    calls of that run of [patchWasm] and ends as it ends. *)
Theorem Build_patches_with_default_pages (w w1 w2 : World) (wd out : string) :
  os_Getenv "INITIAL_PAGES" = "" →
  os_MkdirAll w "build" = (w1, None) →
  os_Getwd w1 = inl wd →
  sh_exec w1 (compileCommand wd) = (w2, out, None) →
  Build w =
    ((patchWasm (filepath_Join ["build"; "mainraw.wasm"])
                (filepath_Join ["build"; "main.wasm"]) 2100 w2).1.1,
     [ShMkdirAll "build"; ShCommand (compileCommand wd)]
     ++ (ShPatch <$> (patchWasm (filepath_Join ["build"; "mainraw.wasm"])
                                (filepath_Join ["build"; "main.wasm"]) 2100 w2).1.2),
     (patchWasm (filepath_Join ["build"; "mainraw.wasm"])
                (filepath_Join ["build"; "main.wasm"]) 2100 w2).2).
Proof.
  intros Henv Hmk Hwd Hrun.
  exact (Build_compiled w w1 w2 2100 wd out Hmk (initialPagesOf_default Henv) Hwd Hrun).
Qed.

(** X11. The page count of INITIAL_PAGES reaches the module unchecked: for any
    integer [n] it parses to, negative or huge, the last call of [Build] hands
    build/main.wasm the module whose minimum is [uint32 n]. *)
Theorem Build_page_override_is_unchecked (w w1 w2 : World) (wd out : string) (n : Z)
    (raw : list byte) (mod_ : WasmModule) (mem : Memory) :
  os_Getenv "INITIAL_PAGES" ≠ "" →
  strconv_Atoi (os_Getenv "INITIAL_PAGES") = (n, None) →
  os_MkdirAll w "build" = (w1, None) →
  os_Getwd w1 = inl wd →
  sh_exec w1 (compileCommand wd) = (w2, out, None) →
  os_ReadFile w2 (filepath_Join ["build"; "mainraw.wasm"]) = inl raw →
  binary_DecodeModule raw CoreFeaturesV2 = inl mod_ →
  MemorySection mod_ = Some mem →
  last (Build w).1.2 =
    Some (ShPatch (EvWriteFile (filepath_Join ["build"; "main.wasm"])
            (binary_EncodeModule
               {| ImportSection := renameImports (ImportSection mod_);
                  MemorySection := Some {| Min := uint32 n; Max := Max mem |};
                  OtherSections := OtherSections mod_ |}))).
Proof.
  intros Henv Hatoi Hmk Hwd Hrun Hread Hdec Hmem.
  rewrite (Build_compiled w w1 w2 n wd out Hmk (initialPagesOf_override n Henv Hatoi) Hwd Hrun).
  assert (Hpatch : patchModule mod_ n =
            Ok {| ImportSection := renameImports (ImportSection mod_);
                  MemorySection := Some {| Min := uint32 n; Max := Max mem |};
                  OtherSections := OtherSections mod_ |}).
  { unfold patchModule, resizeInitialMemory. rewrite Hmem. reflexivity. }
  rewrite (patchWasm_patched _ _ _ _ _ _ _ Hread Hdec Hpatch).
  reflexivity.
Qed.

End BuildProperties.

(** ** runK8sApply, Ftw and UpdateLibs *)

Section TaskProperties.
Context {bh : BuildHost}.

(** X12. With an odd number of replacement strings [runK8sApply] returns an
    error after announcing the file: the manifest is not read and kubectl is
    not run. *)
Theorem runK8sApply_odd_pairs (file : string) (replacementKV : list string) (w : World) :
  (length replacementKV mod 2 = 1)%nat →
  runK8sApply file replacementKV w =
    (w, [ShPrintf ("Applying " +:+ fmt_quote file +:+ newline)],
     Err "missing value for a replacement pair").
Proof.
  intros Hodd. unfold runK8sApply, sh_bind, printf, sh_throw.
  destruct replacementKV as [| k rest]; [discriminate |].
  cbn [length Nat.eqb]. cbn [length] in Hodd. rewrite Hodd. reflexivity.
Qed.

(** The run of [runK8sApply] with replacement pairs, call by call. *)
Lemma runK8sApply_trace (file : string) (replacementKV : list string)
    (w w1 w3 : World) (manifest : list byte) (name out : string) (err : option error) :
  replacementKV ≠ [] →
  (length replacementKV mod 2 = 0)%nat →
  os_ReadFile w file = inl manifest →
  os_CreateTemp w "" (filepath_Base file) = (w1, inl name) →
  sh_exec
    (file_Write w1 name
       (String.list_byte_of_string
          (replacePairs (String.string_of_list_byte manifest) replacementKV)))
    (kubectlApply name) = (w3, out, err) →
  runK8sApply file replacementKV w =
    (os_Remove w3 name,
     [ShPrintf ("Applying " +:+ fmt_quote file +:+ newline);
      ShReadFile file;
      ShCreateTemp "" (filepath_Base file);
      ShFileWrite name
        (String.list_byte_of_string
           (replacePairs (String.string_of_list_byte manifest) replacementKV));
      ShCommand (kubectlApply name);
      ShRemove name],
     resultOf err).
Proof.
  intros Hsome Heven Hread Htemp Hrun.
  unfold runK8sApply, sh_RunV, sh_RunWithV, runCommand, deferring, remove, fileWrite,
    createTemp, readManifest, printf, sh_throw, sh_bind.
  destruct replacementKV as [| k rest] eqn:Hkv; [contradiction |].
  rewrite <- Hkv in *. clear Hsome.
  assert (Hlen : (length replacementKV =? 0)%nat = false) by now rewrite Hkv.
  rewrite Hlen, Heven. cbn [Nat.eqb negb]. rewrite Hread.
  rewrite (replaceLoop_pairs replacementKV [] 0 _ eq_refl).
  rewrite Htemp.
  change (mkInvocation Verbose ∅ "kubectl" ["apply"; "-f"; name]) with (kubectlApply name).
  rewrite Hrun. destruct err; reflexivity.
Qed.

(** X13. The temporary manifest never outlives the call: once it is created,
    removing it is the last thing [runK8sApply] does, whether kubectl
    succeeded or failed, and the result of kubectl is what is returned. *)
Theorem runK8sApply_removes_temp (file : string) (replacementKV : list string)
    (w w1 w3 : World) (manifest : list byte) (name out : string) (err : option error) :
  replacementKV ≠ [] →
  (length replacementKV mod 2 = 0)%nat →
  os_ReadFile w file = inl manifest →
  os_CreateTemp w "" (filepath_Base file) = (w1, inl name) →
  sh_exec
    (file_Write w1 name
       (String.list_byte_of_string
          (replacePairs (String.string_of_list_byte manifest) replacementKV)))
    (kubectlApply name) = (w3, out, err) →
  (runK8sApply file replacementKV w).1.1 = os_Remove w3 name ∧
  last (runK8sApply file replacementKV w).1.2 = Some (ShRemove name) ∧
  (runK8sApply file replacementKV w).2 = resultOf err.
Proof.
  intros Hsome Heven Hread Htemp Hrun.
  rewrite (runK8sApply_trace _ _ _ _ _ _ _ _ _ Hsome Heven Hread Htemp Hrun).
  repeat split.
Qed.


(** X15. Once the images of [Ftw] are built, the containers are torn down after
    the tests whether the tests passed or failed, and the result of the
    tests is returned; the result of the teardown is dropped. *)
Theorem Ftw_tears_down_after_tests (w w1 w2 w3 : World) (out1 out2 out3 : string)
    (err errDown : option error) :
  sh_exec w ftwBuild = (w1, out1, None) →
  sh_exec w1 ftwTests = (w2, out2, err) →
  sh_exec w2 ftwDown = (w3, out3, errDown) →
  Ftw w = (w3, [ShCommand ftwBuild; ShCommand ftwTests; ShCommand ftwDown], resultOf err).
Proof.
  intros Hbuild Htests Hdown.
  unfold Ftw, sh_RunV, sh_RunWithV, runCommand, deferring, sh_bind.
  change (mkInvocation Verbose ∅ "docker-compose" (ftwCompose ++ ["build"; "--pull"]))
    with ftwBuild.
  change (mkInvocation Verbose ftwEnv "docker-compose" (ftwCompose ++ ["run"; "--rm"; ftwTask]))
    with ftwTests.
  change (mkInvocation Verbose ∅ "docker-compose" (ftwCompose ++ ["down"; "-v"]))
    with ftwDown.
  rewrite Hbuild. cbn [snd failWith sh_ret]. rewrite Htests. cbn [snd].
  destruct err; cbn [failWith sh_ret sh_throw]; rewrite Hdown;
    destruct errDown; reflexivity.
Qed.

(** In a run that got through [done], a command that fails ends the run:
    nothing after it is run and its error is the result. *)
Lemma runInOrder_first_failure (done rest : list Invocation) (inv : Invocation)
    (w w1 w2 : World) (evs : list ShEvent) (out : string) (e : error) :
  runInOrder done w = (w1, evs, Ok tt) →
  sh_exec w1 inv = (w2, out, Some e) →
  runInOrder (done ++ inv :: rest) w = (w2, evs ++ [ShCommand inv], Err e).
Proof.
  revert w evs. induction done as [| first done IH]; intros w evs Hdone Hfail.
  - cbn in Hdone. inversion Hdone; subst. cbn. now rewrite Hfail.
  - cbn in Hdone |- *.
    destruct (sh_exec w first) as [[wa outa] [ea |]]; [discriminate |].
    destruct (runInOrder done wa) as [[wb evsb] rb] eqn:Hrest.
    inversion Hdone; subst.
    now rewrite (IH wa evsb Hrest Hfail).
Qed.

(** The commands of a run that got through [done] are those of [done]. *)
Lemma runInOrder_done (done : list Invocation) (w w1 : World) (evs : list ShEvent) :
  runInOrder done w = (w1, evs, Ok tt) → evs = ShCommand <$> done.
Proof.
  revert w evs. induction done as [| first done IH]; intros w evs Hdone.
  - cbn in Hdone. now inversion Hdone.
  - cbn in Hdone.
    destruct (sh_exec w first) as [[wa outa] [ea |]]; [discriminate |].
    destruct (runInOrder done wa) as [[wb evsb] rb] eqn:Hrest.
    inversion Hdone; subst. cbn. f_equal. exact (IH wa evsb Hrest).
Qed.

(** The loop of [UpdateLibs], in a working directory [wd], is the run in
    order of the two commands of each library. *)
Lemma updateLibsLoop_in_order (wd : string) (libs : list string) (w : World) :
  (∀ w' : World, os_Getwd w' = inl wd) →
  updateLibsLoop libs w
  = runInOrder (flat_map (λ lib, [libBuild lib; libRun wd lib]) libs) w.
Proof.
  intros Hwd. revert w. induction libs as [| lib rest IH]; intros w; [reflexivity |].
  cbn [updateLibsLoop flat_map app runInOrder].
  unfold sh_RunV, sh_RunWithV, runCommand, getwd, sh_bind.
  change (mkInvocation Verbose ∅ "docker"
            ["build"; "-t"; buildtoolsImage lib; filepath_Join ["buildtools"; lib]])
    with (libBuild lib).
  destruct (sh_exec w (libBuild lib)) as [[w1 out1] [err1 |]];
    cbn [snd fst failWith sh_ret sh_throw]; [reflexivity |].
  rewrite Hwd.
  change (mkInvocation Verbose ∅ "docker" _) with (libRun wd lib).
  destruct (sh_exec w1 (libRun wd lib)) as [[w2 out2] [err2 |]];
    cbn [snd fst failWith sh_ret sh_throw]; [reflexivity |].
  rewrite (IH w2).
  destruct (runInOrder _ w2) as [[w3 evs] r]. reflexivity.
Qed.

(** X16. In a working directory [wd], [UpdateLibs] runs, in this order, the
    image build and the container run of aho-corasick, libinjection,
    mimalloc and re2, and it stops at the first command that fails: when
    the commands [done] before it have succeeded and the next one fails, the
    commands run are exactly [done] and the failing one, nothing after it is
    run, and its error is returned. *)
Theorem UpdateLibs_stops_at_first_failure (w : World) (wd : string) :
  (∀ w' : World, os_Getwd w' = inl wd) →
  UpdateLibs w =
    runInOrder
      [ libBuild "aho-corasick"; libRun wd "aho-corasick";
        libBuild "libinjection"; libRun wd "libinjection";
        libBuild "mimalloc"; libRun wd "mimalloc";
        libBuild "re2"; libRun wd "re2" ] w ∧
  (∀ (done rest : list Invocation) (inv : Invocation) (w1 w2 : World)
     (evs : list ShEvent) (out : string) (e : error),
     [ libBuild "aho-corasick"; libRun wd "aho-corasick";
       libBuild "libinjection"; libRun wd "libinjection";
       libBuild "mimalloc"; libRun wd "mimalloc";
       libBuild "re2"; libRun wd "re2" ] = done ++ inv :: rest →
     runInOrder done w = (w1, evs, Ok tt) →
     sh_exec w1 inv = (w2, out, Some e) →
     UpdateLibs w = (w2, (ShCommand <$> done) ++ [ShCommand inv], Err e)).
Proof.
  intros Hwd.
  pose proof (updateLibsLoop_in_order wd
                ["aho-corasick"; "libinjection"; "mimalloc"; "re2"] w Hwd) as Hloop.
  cbn [flat_map app] in Hloop. fold UpdateLibs in Hloop.
  split; [exact Hloop |].
  intros done rest inv w1 w2 evs out e Hplan Hdone Hfail.
  rewrite Hloop, Hplan.
  rewrite (runInOrder_first_failure done rest inv w w1 w2 evs out e Hdone Hfail).
  now rewrite (runInOrder_done done w w1 evs Hdone).
Qed.

End TaskProperties.

(** ** The tasks on concrete inputs *)

Lemma tinygo_dev_build_accepted_witness :
  checkTinygoVersion
    (bh := SampleTasks.host SampleTasks.noEnv
             (SampleTasks.prints "tinygo version 0.27.0-dev linux/amd64") SampleTasks.noMatch)
    SampleTasks.disk
  = (SampleTasks.disk, [ShCommand (mkInvocation Captured ∅ "tinygo" ["version"])], Ok tt).
Proof.
  apply (tinygo_dev_build_accepted
           (bh := SampleTasks.host SampleTasks.noEnv
                    (SampleTasks.prints "tinygo version 0.27.0-dev linux/amd64")
                    SampleTasks.noMatch)
           SampleTasks.disk SampleTasks.disk "tinygo version 0.27.0" " linux/amd64").
  reflexivity.
Defined.

Lemma tinygo_release_is_prefix_test_witness :
  checkTinygoVersion
    (bh := SampleTasks.host SampleTasks.noEnv
             (SampleTasks.prints "tinygo version 0.260.1 linux/amd64") SampleTasks.noMatch)
    SampleTasks.disk
  = (SampleTasks.disk, [ShCommand (mkInvocation Captured ∅ "tinygo" ["version"])], Ok tt).
Proof.
  apply (tinygo_release_is_prefix_test
           (bh := SampleTasks.host SampleTasks.noEnv
                    (SampleTasks.prints "tinygo version 0.260.1 linux/amd64")
                    SampleTasks.noMatch)
           SampleTasks.disk SampleTasks.disk "0.1 linux/amd64").
  reflexivity.
Defined.

Lemma go_version_compared_per_component_witness :
  (checkGoVersion
     (bh := SampleTasks.host SampleTasks.noEnv
              (SampleTasks.prints "go version go2.0 linux/amd64") SampleTasks.go2_0)
     SampleTasks.disk).2 = Ok tt
  ↔ (1 ≤ 2)%Z ∧ (19 ≤ 0)%Z ∧ (0 ≤ 0)%Z.
Proof.
  exact (proj1 (go_version_compared_per_component
                  (bh := SampleTasks.host SampleTasks.noEnv
                           (SampleTasks.prints "go version go2.0 linux/amd64")
                           SampleTasks.go2_0)
                  SampleTasks.disk SampleTasks.disk "go version go2.0 linux/amd64"
                  "go2.0" "2" "0" "" eq_refl eq_refl eq_refl eq_refl eq_refl)).
Defined.

Lemma init_stops_at_first_failure_witness :
  init
    (bh := SampleTasks.host SampleTasks.noEnv
             (SampleTasks.prints "tinygo version 0.25.0 linux/amd64") SampleTasks.noMatch)
    SampleTasks.disk
  = (SampleTasks.disk,
     [ShCommand (mkInvocation Captured ∅ "tinygo" ["version"])]
     ++ [ShPrintf ("Error: " +:+ "unexpected tinygo version, wanted 0.26" +:+ newline);
         ShExit 1],
     Ok tt).
Proof.
  apply (init_stops_at_first_failure
           (bh := SampleTasks.host SampleTasks.noEnv
                    (SampleTasks.prints "tinygo version 0.25.0 linux/amd64")
                    SampleTasks.noMatch)).
  reflexivity.
Defined.

Lemma Build_rejects_bad_page_count_witness :
  Build (bh := SampleTasks.host (SampleTasks.pagesEnv "many") (SampleTasks.prints "")
                 SampleTasks.noMatch)
    SampleTasks.disk
  = (SampleTasks.disk, [ShMkdirAll "build"], Err "invalid syntax").
Proof.
  apply (Build_rejects_bad_page_count
           (bh := SampleTasks.host (SampleTasks.pagesEnv "many") (SampleTasks.prints "")
                    SampleTasks.noMatch)
           SampleTasks.disk SampleTasks.disk 0).
  - reflexivity.
  - discriminate.
  - reflexivity.
Defined.

Lemma Build_compile_failure_skips_patch_witness :
  Build (bh := SampleTasks.host SampleTasks.noEnv SampleTasks.fails SampleTasks.noMatch)
    SampleTasks.disk
  = (SampleTasks.disk,
     [ShMkdirAll "build";
      ShCommand (compileCommand
                   (bh := SampleTasks.host SampleTasks.noEnv SampleTasks.fails
                            SampleTasks.noMatch) "/work")],
     Err "exit status 1").
Proof.
  apply (Build_compile_failure_skips_patch
           (bh := SampleTasks.host SampleTasks.noEnv SampleTasks.fails SampleTasks.noMatch)
           SampleTasks.disk SampleTasks.disk SampleTasks.disk 2100 "/work" "");
    reflexivity.
Defined.

Lemma Build_patches_with_default_pages_witness :
  (Build (bh := SampleTasks.host SampleTasks.noEnv (SampleTasks.prints "")
                  SampleTasks.noMatch)
     SampleTasks.disk).2
  = (patchWasm (host := Sample.env) "build/mainraw.wasm" "build/main.wasm" 2100
       SampleTasks.disk).2.
Proof.
  exact (f_equal snd
           (Build_patches_with_default_pages
              (bh := SampleTasks.host SampleTasks.noEnv (SampleTasks.prints "")
                       SampleTasks.noMatch)
              SampleTasks.disk SampleTasks.disk SampleTasks.disk "/work" ""
              eq_refl eq_refl eq_refl eq_refl)).
Defined.

Lemma Build_page_override_is_unchecked_witness :
  last (Build (bh := SampleTasks.host (SampleTasks.pagesEnv "-1") (SampleTasks.prints "")
                       SampleTasks.noMatch)
          SampleTasks.disk).1.2
  = Some (ShPatch (EvWriteFile "build/main.wasm"
            (Sample.encode
               {| ImportSection := renameImports Sample.imports;
                  MemorySection := Some {| Min := uint32 (-1); Max := None |};
                  OtherSections := Sample.sections |}))).
Proof.
  apply (Build_page_override_is_unchecked
           (bh := SampleTasks.host (SampleTasks.pagesEnv "-1") (SampleTasks.prints "")
                    SampleTasks.noMatch)
           SampleTasks.disk SampleTasks.disk SampleTasks.disk "/work" "" (-1)
           Sample.rawModule Sample.moduleTwoPages {| Min := 2; Max := None |});
    (reflexivity || discriminate).
Defined.

Lemma runK8sApply_odd_pairs_witness :
  runK8sApply
    (bh := SampleTasks.host SampleTasks.noEnv (SampleTasks.prints "") SampleTasks.noMatch)
    "wasmplugin.yaml" ["${IMAGE}"] SampleTasks.disk
  = (SampleTasks.disk,
     [ShPrintf ("Applying " +:+ SampleTasks.quote "wasmplugin.yaml" +:+ newline)],
     Err "missing value for a replacement pair").
Proof.
  apply (runK8sApply_odd_pairs
           (bh := SampleTasks.host SampleTasks.noEnv (SampleTasks.prints "")
                    SampleTasks.noMatch)).
  reflexivity.
Defined.

Lemma runK8sApply_removes_temp_witness :
  last (runK8sApply
          (bh := SampleTasks.host SampleTasks.noEnv SampleTasks.fails SampleTasks.noMatch)
          "wasmplugin.yaml" ["${IMAGE}"; "coraza:1"] SampleTasks.disk).1.2
    = Some (ShRemove "/tmp/wasmplugin.yaml") ∧
  (runK8sApply
     (bh := SampleTasks.host SampleTasks.noEnv SampleTasks.fails SampleTasks.noMatch)
     "wasmplugin.yaml" ["${IMAGE}"; "coraza:1"] SampleTasks.disk).2
    = Err "exit status 1".
Proof.
  exact (proj2 (runK8sApply_removes_temp
                  (bh := SampleTasks.host SampleTasks.noEnv SampleTasks.fails
                           SampleTasks.noMatch)
                  "wasmplugin.yaml" ["${IMAGE}"; "coraza:1"]
                  SampleTasks.disk SampleTasks.disk _ SampleTasks.manifest
                  "/tmp/wasmplugin.yaml" "" (Some "exit status 1")
                  ltac:(discriminate) eq_refl eq_refl eq_refl eq_refl)).
Defined.


Lemma Ftw_tears_down_after_tests_witness :
  Ftw (bh := SampleTasks.host SampleTasks.noEnv SampleTasks.testsFail SampleTasks.noMatch)
    SampleTasks.disk
  = (SampleTasks.disk,
     [ShCommand (ftwBuild);
      ShCommand (ftwTests (bh := SampleTasks.host SampleTasks.noEnv SampleTasks.testsFail
                                   SampleTasks.noMatch));
      ShCommand (ftwDown)],
     Err "exit status 1").
Proof.
  apply (Ftw_tears_down_after_tests
           (bh := SampleTasks.host SampleTasks.noEnv SampleTasks.testsFail
                    SampleTasks.noMatch)
           SampleTasks.disk SampleTasks.disk SampleTasks.disk SampleTasks.disk
           "" "" "" (Some "exit status 1") None);
    reflexivity.
Defined.

Lemma UpdateLibs_stops_at_first_failure_witness :
  UpdateLibs (bh := SampleTasks.host SampleTasks.noEnv SampleTasks.fails SampleTasks.noMatch)
    SampleTasks.disk
  = (SampleTasks.disk,
     [ShCommand
        (libBuild (bh := SampleTasks.host SampleTasks.noEnv SampleTasks.fails
                           SampleTasks.noMatch) "aho-corasick")],
     Err "exit status 1").
Proof.
  exact (proj2 (UpdateLibs_stops_at_first_failure
                  (bh := SampleTasks.host SampleTasks.noEnv SampleTasks.fails
                           SampleTasks.noMatch)
                  SampleTasks.disk "/work" (λ _, eq_refl))
           [] _ _ SampleTasks.disk SampleTasks.disk [] "" "exit status 1"
           eq_refl eq_refl eq_refl).
Defined.
